(** * modal-drift: the task board's store, filter view, drag controller and form

    A shallow embedding of the state logic of [TaskManager] (the task
    collection, its filtered and grouped views, the drag handlers, delete,
    status update and save), of [TaskModal] (the seeding of the form, its
    inputs and images, the submit handler) and of the overdue flag of
    [TaskCard], followed by the properties of the specification that
    concern them and by further properties of the handlers.

    Conventions of the embedding.
    - A JavaScript string is a [string]: a sequence of code units below 256.
    - A JavaScript array is a [list]; array indices and the results of
      [findIndex] are integers ([Z]), with [-1] for "not found".
    - React state is a record; a handler is a function from the state in
      which it runs to the state after the updates it queues have been
      applied.  The toasts a handler raises are returned next to the state.
    - What a handler reads from the outside world (the clock, the random
      number generator) is an explicit argument, [Env].
    - [Date] parsing and calendar-day rendering are host functions; they are
      section variables, instantiated for the concrete examples. *)

From Stdlib Require Import List String Ascii Bool ZArith Lia Permutation.
From Stdlib Require Import DecimalString.
Import ListNotations.
Local Open Scope string_scope.
Local Open Scope list_scope.
Local Open Scope Z_scope.

(** ** JavaScript built-ins used by the components *)

Module Js.

(** The double quote character, for the template literals of the toasts. *)
Definition dquote : string := String (ascii_of_nat 34) EmptyString.

(** White space removed by [String.prototype.trim], among code units
    below 256: TAB, LF, VT, FF, CR, SPACE and NO-BREAK SPACE. *)
Definition isWhiteSpace (c : ascii) : bool :=
  let n := nat_of_ascii c in
  ((9 <=? n) && (n <=? 13) || (n =? 32) || (n =? 160))%nat.

Fixpoint trimStart (s : string) : string :=
  match s with
  | EmptyString => EmptyString
  | String c r => if isWhiteSpace c then trimStart r else s
  end.

(** [trimEnd] drops a character when it is white space and everything
    after it has been dropped. *)
Fixpoint trimEnd (s : string) : string :=
  match s with
  | EmptyString => EmptyString
  | String c r =>
      match trimEnd r with
      | EmptyString => if isWhiteSpace c then EmptyString
                       else String c EmptyString
      | r' => String c r'
      end
  end.

Definition trim (s : string) : string := trimEnd (trimStart s).

(** Truthiness of a string: the empty string is the only falsy one. *)
Definition truthy (s : string) : bool :=
  match s with EmptyString => false | _ => true end.

(** [toLowerCase] on code units below 256: A-Z, and the Latin-1 capitals
    U+00C0-U+00DE without the multiplication sign U+00D7. *)
Definition lowerChar (c : ascii) : ascii :=
  let n := nat_of_ascii c in
  if ((65 <=? n) && (n <=? 90)
      || (192 <=? n) && (n <=? 222) && negb (n =? 215))%nat
  then ascii_of_nat (n + 32) else c.

Fixpoint toLowerCase (s : string) : string :=
  match s with
  | EmptyString => EmptyString
  | String c r => String (lowerChar c) (toLowerCase r)
  end.

(** [s.includes(q)]: [q] occurs in [s] at some offset. *)
Fixpoint includes (s q : string) : bool :=
  if String.prefix q s then true
  else match s with
       | EmptyString => false
       | String _ r => includes r q
       end.

(** [s.substr(start, length)] for a non-negative [start]. *)
Definition substr (start len : nat) (s : string) : string :=
  String.substring start len s.

Section Arrays.
Context {A : Type}.

(** [array.findIndex(p)]: the first index whose element satisfies [p],
    or [-1]. *)
Fixpoint findIndex (p : A -> bool) (array : list A) : Z :=
  match array with
  | [] => -1
  | x :: r =>
      if p x then 0
      else let i := findIndex p r in
           if i <? 0 then -1 else i + 1
  end.

(** The start position [splice] computes from its first argument:
    negative values count from the end, and the result is clamped to
    [0 .. length]. *)
Definition spliceStart (len : nat) (start : Z) : nat :=
  if start <? 0 then Z.to_nat (Z.max (Z.of_nat len + start) 0)
  else Nat.min (Z.to_nat start) len.

(** [array.splice(start, deleteCount, ...items)]: the removed elements
    and the array afterwards. *)
Definition splice (array : list A) (start : Z) (deleteCount : nat)
    (items : list A) : list A * list A :=
  let k := spliceStart (List.length array) start in
  (firstn deleteCount (skipn k array),
   firstn k array ++ items ++ skipn deleteCount (skipn k array)).

(** [arrayMove] of @dnd-kit/sortable:
<<
  const newArray = array.slice();
  newArray.splice(to < 0 ? newArray.length + to : to, 0,
                  newArray.splice(from, 1)[0]);
  return newArray;
>>
    The arguments are evaluated from left to right, so the insertion
    position is computed before the element is taken out.  When
    [splice(from, 1)] removes nothing (an empty array, or [from] at or
    past the end) the library inserts [undefined]; a [list A] has no
    such element and the array is returned without it.  The handler
    below only calls [arrayMove] with two indices found by [findIndex]
    in the array itself (see [handleDragEnd_indices]). *)
Definition arrayMove (array : list A) (from to : Z) : list A :=
  let newArray := array in
  let pos := if to <? 0 then Z.of_nat (List.length newArray) + to else to in
  let '(removed, newArray) := splice newArray from 1 [] in
  match removed with
  | x :: _ => snd (splice newArray pos 0 [x])
  | [] => newArray
  end.
(** [array.filter((x, i) => p(x, i))], the index counted from [i]. *)
Fixpoint filterFrom (p : A -> Z -> bool) (i : Z) (array : list A) : list A :=
  match array with
  | [] => []
  | x :: r => if p x i then x :: filterFrom p (i + 1) r else filterFrom p (i + 1) r
  end.

Definition filterIndexed (p : A -> Z -> bool) (array : list A) : list A :=
  filterFrom p 0 array.
End Arrays.

End Js.

(** ** Data model (types/task.ts) *)

Inductive Priority : Type := urgent | high | medium | low.
Inductive Status : Type := todo | progress | completed.

Definition Priority_eqb (a b : Priority) : bool :=
  match a, b with
  | urgent, urgent | high, high | medium, medium | low, low => true
  | _, _ => false
  end.

Definition Status_eqb (a b : Status) : bool :=
  match a, b with
  | todo, todo | progress, progress | completed, completed => true
  | _, _ => false
  end.

(** The string a value of the union type is at run time. *)
Definition Priority_tag (p : Priority) : string :=
  match p with
  | urgent => "urgent" | high => "high" | medium => "medium" | low => "low"
  end.

Definition Status_tag (s : Status) : string :=
  match s with
  | todo => "todo" | progress => "progress" | completed => "completed"
  end.

(** [priorities.includes(overId)] followed by the cast [overId as Priority]:
    the priority a string names, if any. *)
Definition Priority_of_tag (s : string) : option Priority :=
  List.find (fun p => String.eqb (Priority_tag p) s) [urgent; high; medium; low].

Module Task.
Record t : Type := mk {
  id : string;
  name : string;
  assignedTo : string;
  startDate : string;
  endDate : string;
  priority : Priority;
  status : Status;
  images : list string;
  description : option string;
  createdAt : string;
  updatedAt : string;
}.
End Task.

(** The form's draft.  [description] is optional in the interface: [None] is
  the property being absent (the modal itself always writes a string). *)
Module TaskFormData.
Record t : Type := mk {
  name : string;
  assignedTo : string;
  startDate : string;
  endDate : string;
  priority : Priority;
  description : option string;
}.
End TaskFormData.

(** ** TaskManager: state *)

(** A toast raised through [toast({ title, description, variant })];
    [destructive] is [variant: "destructive"]. *)
Record Toast : Type := mkToast {
  title : string;
  toastDescription : string;
  destructive : bool;
}.

(** A [Date] object is its time value in milliseconds, or [None] when the
    time value is NaN (an invalid date). *)
Definition Date : Type := option Z.

(** The [useState] cells of [TaskManager]. *)
Record State : Type := mkState {
  tasks : list Task.t;
  activeTask : option Task.t;
  isModalOpen : bool;
  editingTask : option Task.t;
  defaultPriority : Priority;
  searchQuery : string;
  statusFilter : string;
  dateFilter : option Date;
}.

Definition setTasks (v : list Task.t) (st : State) : State :=
  mkState v (activeTask st) (isModalOpen st) (editingTask st)
    (defaultPriority st) (searchQuery st) (statusFilter st) (dateFilter st).

Definition setActiveTask (v : option Task.t) (st : State) : State :=
  mkState (tasks st) v (isModalOpen st) (editingTask st)
    (defaultPriority st) (searchQuery st) (statusFilter st) (dateFilter st).

Definition setIsModalOpen (v : bool) (st : State) : State :=
  mkState (tasks st) (activeTask st) v (editingTask st)
    (defaultPriority st) (searchQuery st) (statusFilter st) (dateFilter st).

Definition setEditingTask (v : option Task.t) (st : State) : State :=
  mkState (tasks st) (activeTask st) (isModalOpen st) v
    (defaultPriority st) (searchQuery st) (statusFilter st) (dateFilter st).

Definition setDefaultPriority (v : Priority) (st : State) : State :=
  mkState (tasks st) (activeTask st) (isModalOpen st) (editingTask st)
    v (searchQuery st) (statusFilter st) (dateFilter st).

(** What a handler reads from its environment: [new Date().toISOString()]
    and [Math.random().toString(36)]. *)
Record Env : Type := mkEnv {
  now : string;
  random36 : string;
}.

(** A drag event of @dnd-kit: the id of the dragged item and, when the
    pointer is over a droppable, that droppable's id.  Columns register the
    droppable id [priority], cards the sortable id [task.id]. *)
Record DragEvent : Type := mkDragEvent {
  active : string;
  over : option string;
}.

Definition hasId (i : string) (t : Task.t) : bool := String.eqb (Task.id t) i.

Definition hasPriority (p : Priority) (t : Task.t) : bool :=
  Priority_eqb (Task.priority t) p.

(** ** TaskManager: handlers *)

(** [Math.random().toString(36).substr(2, 9)] *)
Definition generateId (env : Env) : string := Js.substr 2 9 (random36 env).

Definition handleDragStart (event : DragEvent) (st : State) : State :=
  let task := List.find (hasId (active event)) (tasks st) in
  setActiveTask task st.

(** [{ ...task, priority: newPriority, updatedAt: new Date().toISOString() }] *)
Definition withPriority (task : Task.t) (newPriority : Priority)
    (stamp : string) : Task.t :=
  Task.mk (Task.id task) (Task.name task) (Task.assignedTo task)
    (Task.startDate task) (Task.endDate task) newPriority (Task.status task)
    (Task.images task) (Task.description task) (Task.createdAt task) stamp.

Definition handleDragOver (env : Env) (event : DragEvent) (st : State) : State :=
  match over event with
  | None => st
  | Some overId =>
      let activeId := active event in
      match List.find (hasId activeId) (tasks st) with
      | None => st
      | Some activeTask =>
          match Priority_of_tag overId with
          | Some newPriority =>
              if negb (Priority_eqb (Task.priority activeTask) newPriority)
              then setTasks
                     (List.map (fun task =>
                        if String.eqb (Task.id task) activeId
                        then withPriority task newPriority (now env)
                        else task) (tasks st)) st
              else st
          | None => st
          end
      end
  end.

Definition handleDragEnd (event : DragEvent) (st : State) : State :=
  let st' := setActiveTask None st in
  match over event with
  | None => st'
  | Some overId =>
      let activeId := active event in
      let activeTask := List.find (hasId activeId) (tasks st) in
      let overTask := List.find (hasId overId) (tasks st) in
      match activeTask with
      | None => st'
      | Some activeTask =>
          match overTask with
          | Some overTask =>
              if Priority_eqb (Task.priority activeTask) (Task.priority overTask)
              then
                let priorityTasks :=
                  List.filter (hasPriority (Task.priority activeTask)) (tasks st) in
                let activeIndex := Js.findIndex (hasId activeId) priorityTasks in
                let overIndex := Js.findIndex (hasId overId) priorityTasks in
                if negb (activeIndex =? overIndex)
                then
                  let reorderedTasks :=
                    Js.arrayMove priorityTasks activeIndex overIndex in
                  let otherTasks :=
                    List.filter
                      (fun t => negb (hasPriority (Task.priority activeTask) t))
                      (tasks st) in
                  setTasks (otherTasks ++ reorderedTasks) st'
                else st'
              else st'
          | None => st'
          end
      end
  end.

(** The store's [reorder(priority, fromIndex, toIndex)]: the body of
    [handleDragEnd] from the computation of [priorityTasks] on, as a function
    of the priority and of the two positions in that priority's
    subsequence. *)
Definition reorder (priority : Priority) (fromIndex toIndex : Z)
    (tasks : list Task.t) : list Task.t :=
  let priorityTasks := List.filter (hasPriority priority) tasks in
  if negb (fromIndex =? toIndex)
  then
    let reorderedTasks := Js.arrayMove priorityTasks fromIndex toIndex in
    let otherTasks := List.filter (fun t => negb (hasPriority priority t)) tasks in
    otherTasks ++ reorderedTasks
  else tasks.

Definition handleAddTask (priority : Priority) (st : State) : State :=
  setIsModalOpen true (setEditingTask None (setDefaultPriority priority st)).

Definition handleEditTask (task : Task.t) (st : State) : State :=
  setIsModalOpen true (setEditingTask (Some task) st).

(** [task?.name] inside a template literal. *)
Definition nameInTemplate (task : option Task.t) : string :=
  match task with
  | Some t => Task.name t
  | None => "undefined"
  end.

Definition quoted (s : string) : string :=
  String.append Js.dquote (String.append s Js.dquote).

Definition handleDeleteTask (taskId : string) (st : State) : State * list Toast :=
  let task := List.find (hasId taskId) (tasks st) in
  (setTasks (List.filter (fun t => negb (hasId taskId t)) (tasks st)) st,
   [ mkToast "Task Deleted"
       (String.append "Task "
          (String.append (quoted (nameInTemplate task))
             " has been deleted successfully."))
       false ]).

(** [{ ...t, status: newStatus, updatedAt: new Date().toISOString() }] *)
Definition withStatus (t : Task.t) (newStatus : Status) (stamp : string) : Task.t :=
  Task.mk (Task.id t) (Task.name t) (Task.assignedTo t)
    (Task.startDate t) (Task.endDate t) (Task.priority t) newStatus
    (Task.images t) (Task.description t) (Task.createdAt t) stamp.

Definition handleStatusUpdate (env : Env) (taskId : string) (newStatus : Status)
    (st : State) : State * list Toast :=
  let task := List.find (hasId taskId) (tasks st) in
  (setTasks
     (List.map (fun t => if String.eqb (Task.id t) taskId
                         then withStatus t newStatus (now env) else t)
        (tasks st)) st,
   [ mkToast "Status Updated"
       (String.append "Task "
          (String.append (quoted (nameInTemplate task))
             (String.append " moved to "
                (String.append (Status_tag newStatus) "."))))
       false ]).

(** [{ ...task, ...taskData, images, updatedAt: timestamp }]: the draft's
    properties overwrite the task's; an absent [description] leaves the
    task's own in place. *)
Definition mergeDraft (task : Task.t) (taskData : TaskFormData.t)
    (images : list string) (timestamp : string) : Task.t :=
  Task.mk (Task.id task)
    (TaskFormData.name taskData) (TaskFormData.assignedTo taskData)
    (TaskFormData.startDate taskData) (TaskFormData.endDate taskData)
    (TaskFormData.priority taskData) (Task.status task) images
    (match TaskFormData.description taskData with
     | Some d => Some d
     | None => Task.description task
     end)
    (Task.createdAt task) timestamp.

(** [{ id: generateId(), ...taskData, status: 'todo', images,
       createdAt: timestamp, updatedAt: timestamp }] *)
Definition newTaskOf (env : Env) (taskData : TaskFormData.t)
    (images : list string) (timestamp : string) : Task.t :=
  Task.mk (generateId env)
    (TaskFormData.name taskData) (TaskFormData.assignedTo taskData)
    (TaskFormData.startDate taskData) (TaskFormData.endDate taskData)
    (TaskFormData.priority taskData) todo images
    (TaskFormData.description taskData) timestamp timestamp.

Definition handleSaveTask (env : Env) (taskData : TaskFormData.t)
    (images : list string) (st : State) : State :=
  let timestamp := now env in
  match editingTask st with
  | Some editingTask =>
      setTasks
        (List.map (fun task =>
           if String.eqb (Task.id task) (Task.id editingTask)
           then mergeDraft task taskData images timestamp
           else task) (tasks st)) st
  | None =>
      let newTask := newTaskOf env taskData images timestamp in
      setTasks (tasks st ++ [newTask]) st
  end.

Definition handleCloseModal (st : State) : State :=
  setEditingTask None (setIsModalOpen false st).

(** ** The filtered and grouped views, and TaskModal's submit *)

(** The four columns of [groupedTasks]. *)
Module Grouped.
Record t : Type := mk {
  urgent : list Task.t;
  high : list Task.t;
  medium : list Task.t;
  low : list Task.t;
}.
End Grouped.

(** [groupedTasks[priority]] *)
Definition bucket (g : Grouped.t) (p : Priority) : list Task.t :=
  match p with
  | urgent => Grouped.urgent g
  | high => Grouped.high g
  | medium => Grouped.medium g
  | low => Grouped.low g
  end.

(** The [useState] cells of [TaskModal]. *)
Record ModalState : Type := mkModalState {
  formData : TaskFormData.t;
  images : list string;
  isSubmitting : bool;
}.

Definition setIsSubmitting (v : bool) (m : ModalState) : ModalState :=
  mkModalState (formData m) (images m) v.

(** [Occurs q s]: the string [q] is a substring of [s]. *)
Definition Occurs (q s : string) : Prop :=
  exists pre post, s = String.append pre (String.append q post).

Section Host.

(** [new Date(s)]: the time value parsed from [s], [None] when [s] does not
    parse (the date is invalid, its time value NaN). *)
Variable Date_parse : string -> option Z.

(** [toDateString] of a valid date: the rendering of its local calendar
    day. *)
Variable dayString : Z -> string.

Definition newDate (s : string) : Date := Date_parse s.

Definition toDateString (d : Date) : string :=
  match d with
  | Some t => dayString t
  | None => "Invalid Date"
  end.

(** [a > b] on two [Date] objects: the comparison of their time values,
    false as soon as one of them is NaN. *)
Definition Date_gt (a b : Date) : bool :=
  match a, b with
  | Some x, Some y => y <? x
  | _, _ => false
  end.

Definition matchesSearch (st : State) (task : Task.t) : bool :=
  Js.includes (Js.toLowerCase (Task.name task)) (Js.toLowerCase (searchQuery st))
  || Js.includes (Js.toLowerCase (Task.assignedTo task))
       (Js.toLowerCase (searchQuery st)).

Definition matchesStatus (st : State) (task : Task.t) : bool :=
  String.eqb (statusFilter st) "all"
  || String.eqb (Status_tag (Task.status task)) (statusFilter st).

(** [!dateFilter || ...]: a [Date] object is truthy, so the first disjunct
    holds exactly when no date is selected. *)
Definition matchesDate (st : State) (task : Task.t) : bool :=
  match dateFilter st with
  | None => true
  | Some d =>
      String.eqb (toDateString (newDate (Task.createdAt task))) (toDateString d)
  end.

Definition filteredTasks (st : State) : list Task.t :=
  List.filter (fun task =>
    matchesSearch st task && matchesStatus st task && matchesDate st task)
    (tasks st).

Definition groupedTasks (st : State) : Grouped.t :=
  Grouped.mk
    (List.filter (fun task => Priority_eqb (Task.priority task) urgent)
       (filteredTasks st))
    (List.filter (fun task => Priority_eqb (Task.priority task) high)
       (filteredTasks st))
    (List.filter (fun task => Priority_eqb (Task.priority task) medium)
       (filteredTasks st))
    (List.filter (fun task => Priority_eqb (Task.priority task) low)
       (filteredTasks st)).

(** [TaskModal]'s [handleSubmit], mounted by [TaskManager] with
    [task = editingTask], [onSave = handleSaveTask] and
    [onClose = handleCloseModal].  [handleSaveTask] does not throw, so the
    [catch] branch is never entered. *)
Definition handleSubmit (env : Env) (st : State) (m : ModalState)
    : State * ModalState * list Toast :=
  if negb (Js.truthy (Js.trim (TaskFormData.name (formData m))))
     || negb (Js.truthy (Js.trim (TaskFormData.assignedTo (formData m))))
  then
    (st, m,
     [ mkToast "Missing Information"
         "Please fill in the task name and assigned person." true ])
  else if Date_gt (newDate (TaskFormData.startDate (formData m)))
                  (newDate (TaskFormData.endDate (formData m)))
  then
    (st, m,
     [ mkToast "Invalid Dates" "Start date cannot be after end date." true ])
  else
    let task := editingTask st in
    let m := setIsSubmitting true m in
    let st := handleSaveTask env (formData m) (images m) st in
    let done :=
      mkToast
        (match task with Some _ => "Task Updated" | None => "Task Created" end)
        (String.append "Task "
           (String.append (quoted (TaskFormData.name (formData m)))
              (String.append " has been "
                 (String.append
                    (match task with Some _ => "updated" | None => "created" end)
                    " successfully."))))
        false in
    let st := handleCloseModal st in
    (st, setIsSubmitting false m, [done]).

(** The three predicates of the filter, in the specification's words. *)
Definition searchMatches (st : State) (t : Task.t) : Prop :=
  Occurs (Js.toLowerCase (searchQuery st)) (Js.toLowerCase (Task.name t))
  \/ Occurs (Js.toLowerCase (searchQuery st)) (Js.toLowerCase (Task.assignedTo t)).

Definition statusMatches (st : State) (t : Task.t) : Prop :=
  statusFilter st = "all" \/ Status_tag (Task.status t) = statusFilter st.

Definition dateMatches (st : State) (t : Task.t) : Prop :=
  dateFilter st = None
  \/ exists d, dateFilter st = Some d
               /\ toDateString (newDate (Task.createdAt t))
                  = toDateString d.

(** [a < b] on two [Date] objects, false as soon as one of them is
    invalid. *)
Definition Date_lt (a b : Date) : bool :=
  match a, b with
  | Some x, Some y => x <? y
  | _, _ => false
  end.

(** [TaskCard]'s [isOverdue], with [current] the time value of
    [new Date()]:
    [new Date(task.endDate) < new Date() && task.status !== 'completed']. *)
Definition isOverdue (current : Z) (task : Task.t) : bool :=
  Date_lt (newDate (Task.endDate task)) (Some current)
  && negb (Status_eqb (Task.status task) completed).

End Host.

(** ** TaskModal: the form's own handlers *)

Definition setFormData (v : TaskFormData.t) (m : ModalState) : ModalState :=
  mkModalState v (images m) (isSubmitting m).

Definition setImages (v : list string) (m : ModalState) : ModalState :=
  mkModalState (formData m) v (isSubmitting m).

(** [task.description || '']: a missing or empty description reads as the
    empty string. *)
Definition descriptionOrEmpty (d : option string) : string :=
  match d with
  | Some s => if Js.truthy s then s else EmptyString
  | None => EmptyString
  end.

(** [defaultPriority || 'medium'] *)
Definition priorityOrMedium (p : option Priority) : Priority :=
  match p with
  | Some p => p
  | None => medium
  end.

(** The [useEffect] of [TaskModal], run when [task], [defaultPriority] or
    [isOpen] changes: the form is seeded from the task being edited, or
    reset. *)
Definition seedForm (task : option Task.t) (defaultPriority : option Priority)
    (m : ModalState) : ModalState :=
  match task with
  | Some task =>
      setImages (Task.images task)
        (setFormData
           (TaskFormData.mk (Task.name task) (Task.assignedTo task)
              (Task.startDate task) (Task.endDate task) (Task.priority task)
              (Some (descriptionOrEmpty (Task.description task)))) m)
  | None =>
      setImages []
        (setFormData
           (TaskFormData.mk EmptyString EmptyString EmptyString EmptyString
              (priorityOrMedium defaultPriority) (Some EmptyString)) m)
  end.




(** The [onload] callback [handleImageUpload] installs on each file's
    reader, called with [e.target?.result]: a non-empty result is appended
    to the images.  The callbacks of several files run one at a time, in
    the order the reads complete. *)
Definition onImageLoad (result : option string) (m : ModalState) : ModalState :=
  match result with
  | Some r => if Js.truthy r then setImages (images m ++ [r]) m else m
  | None => m
  end.

(** [setImages(prev => prev.filter((_, i) => i !== index))] *)
Definition removeImage (index : Z) (m : ModalState) : ModalState :=
  setImages (Js.filterIndexed (fun _ i => negb (i =? index)) (images m)) m.

(** ** TaskColumn and the statistics row *)


(** [Object.entries(groupedTasks)] with [tasks.length] for each entry, in
    the order of the keys. *)
Definition columnCounts (g : Grouped.t) : list (Priority * nat) :=
  List.map (fun p => (p, List.length (bucket g p))) [urgent; high; medium; low].

(** ** A concrete host, for the examples

    Dates are parsed in the form [YYYY-MM-DD], optionally followed by a time
    that is ignored, as midnight UTC of that day; the local time zone is UTC
    and a calendar day is rendered by its day number since the epoch. *)

Module ExampleHost.

Definition digit (c : ascii) : option Z :=
  let n := nat_of_ascii c in
  if ((48 <=? n) && (n <=? 57))%nat then Some (Z.of_nat n - 48) else None.

Fixpoint number (acc : Z) (cs : list ascii) : option Z :=
  match cs with
  | [] => Some acc
  | c :: r => match digit c with
              | Some d => number (10 * acc + d) r
              | None => None
              end
  end.

(** Days from 1970-01-01 to the given civil date (proleptic Gregorian). *)
Definition daysFromCivil (y m d : Z) : Z :=
  let y' := if m <=? 2 then y - 1 else y in
  let era := y' / 400 in
  let yoe := y' - era * 400 in
  let doy := (153 * (if 2 <? m then m - 3 else m + 9) + 2) / 5 + d - 1 in
  let doe := yoe * 365 + yoe / 4 - yoe / 100 + doy in
  era * 146097 + doe - 719468.

Definition Date_parse (s : string) : option Z :=
  match list_ascii_of_string s with
  | y1 :: y2 :: y3 :: y4 :: d1 :: m1 :: m2 :: d2 :: a1 :: a2 :: _ =>
      if (Ascii.eqb d1 "-" && Ascii.eqb d2 "-")%bool then
        match number 0 [y1; y2; y3; y4], number 0 [m1; m2], number 0 [a1; a2] with
        | Some y, Some m, Some d =>
            if ((1 <=? m) && (m <=? 12) && (1 <=? d) && (d <=? 31))%bool
            then Some (daysFromCivil y m d * 86400000)
            else None
        | _, _, _ => None
        end
      else None
  | _ => None
  end.

Definition decimal (n : Z) : string :=
  NilEmpty.string_of_int (Z.to_int n).

Definition dayString (t : Z) : string := decimal (t / 86400000).

End ExampleHost.

(** ** Vocabulary of the specification *)

(** Removing the element at an index, and inserting one at an index. *)
Definition removeAt {A} (i : nat) (l : list A) : list A :=
  firstn i l ++ skipn (S i) l.

Definition insertAt {A} (j : nat) (x : A) (l : list A) : list A :=
  firstn j l ++ x :: skipn j l.

(** [Subseq s l]: [s] is [l] with some elements left out, the others in
    their order. *)
Inductive Subseq {A} : list A -> list A -> Prop :=
| Subseq_nil : Subseq [] []
| Subseq_keep x s l : Subseq s l -> Subseq (x :: s) (x :: l)
| Subseq_skip x s l : Subseq s l -> Subseq s (x :: l).

(** Written after the specification's words for [reorder]: the reordered
    subsequence of priority [P] is written back, element by element, into
    the positions that tasks of priority [P] occupy in the collection. *)
Fixpoint spliceBack (P : Priority) (collection sub : list Task.t) : list Task.t :=
  match collection with
  | [] => []
  | t :: rest =>
      if hasPriority P t
      then match sub with
           | s :: sub' => s :: spliceBack P rest sub'
           | [] => spliceBack P rest []
           end
      else t :: spliceBack P rest sub
  end.

Definition reorder_spliced (P : Priority) (fromIndex toIndex : Z)
    (collection : list Task.t) : list Task.t :=
  spliceBack P collection
    (Js.arrayMove (List.filter (hasPriority P) collection) fromIndex toIndex).

(** A handler's report is a failure when it raises a destructive toast;
    the components have no other error channel. *)
Definition reportsFailure (toasts : list Toast) : Prop :=
  exists t, In t toasts /\ destructive t = true.

(** The ids of a collection. *)
Definition ids (l : list Task.t) : list string := List.map Task.id l.

(** A string of white space only (the empty string included). *)
Fixpoint allWhiteSpace (s : string) : bool :=
  match s with
  | EmptyString => true
  | String c r => Js.isWhiteSpace c && allWhiteSpace r
  end.

(** A rewriting of tasks that leaves the id alone. *)
Definition keepsId (f : Task.t -> Task.t) : Prop :=
  forall t, Task.id (f t) = Task.id t.

(** A submit is rejected for invalid input when its one toast is one of the
    two destructive toasts of the validation. *)
Definition ValidationError (toasts : list Toast) : Prop :=
  exists t, toasts = [t] /\ destructive t = true
            /\ (title t = "Missing Information" \/ title t = "Invalid Dates").

(** The toast [handleDeleteTask] raises when it finds no task. *)
Definition deletedUndefined : Toast :=
  mkToast "Task Deleted"
    (String.append "Task "
       (String.append (quoted "undefined") " has been deleted successfully."))
    false.

(** ** Example data *)

Module Examples.

(** The sample data of [TaskManager]. *)
Definition initialTasks : list Task.t :=
  [ Task.mk "1" "Design system components" "Sarah Johnson"
      "2024-01-15" "2024-01-25" high todo []
      (Some "Create reusable components for the design system")
      "2024-01-10T10:00:00Z" "2024-01-10T10:00:00Z";
    Task.mk "2" "API integration" "Mike Chen"
      "2024-01-18" "2024-01-30" urgent todo []
      (Some "Integrate third-party APIs")
      "2024-01-12T09:00:00Z" "2024-01-12T09:00:00Z";
    Task.mk "3" "Documentation update" "Emily Davis"
      "2024-01-20" "2024-02-05" low todo []
      (Some "Update project documentation")
      "2024-01-14T14:00:00Z" "2024-01-14T14:00:00Z" ].

(** The state [TaskManager] starts in. *)
Definition initialState : State :=
  mkState initialTasks None false None medium EmptyString "all" None.

Definition task1 : Task.t := nth 0 initialTasks (Task.mk EmptyString EmptyString EmptyString EmptyString EmptyString low todo [] None EmptyString EmptyString).
Definition task2 : Task.t := nth 1 initialTasks task1.
Definition task3 : Task.t := nth 2 initialTasks task1.

(** A fourth task, of the same priority as the first. *)
Definition task4 : Task.t :=
  Task.mk "4" "Release notes" "Sarah Johnson"
    "2024-01-22" "2024-01-23" high progress [] (Some EmptyString)
    "2024-01-15T08:00:00Z" "2024-01-15T08:00:00Z".

Definition fourTasks : list Task.t := initialTasks ++ [task4].

Definition fourState : State := setTasks fourTasks initialState.

Definition env : Env := mkEnv "2024-01-20T12:00:00.000Z" "0.4fzyo82mvyr".

Definition designDraft : TaskFormData.t :=
  TaskFormData.mk "Design" "Sarah" "2024-01-15" "2024-01-25" high (Some EmptyString).

Definition modalOf (draft : TaskFormData.t) : ModalState :=
  mkModalState draft [] false.

End Examples.

(** ** Facts about the built-ins *)

Lemma Priority_eqb_eq a b : Priority_eqb a b = true <-> a = b.
Proof. destruct a, b; simpl; split; congruence. Qed.

Lemma Priority_eqb_refl a : Priority_eqb a a = true.
Proof. now destruct a. Qed.

Lemma Priority_eqb_neq a b : Priority_eqb a b = false <-> a <> b.
Proof. destruct a, b; simpl; split; congruence. Qed.

Lemma Priority_of_tag_tag p : Priority_of_tag (Priority_tag p) = Some p.
Proof. now destruct p. Qed.

Section ArrayFacts.
Context {A : Type}.
Implicit Types (l : list A) (p : A -> bool).

(** A non-negative result of [findIndex] points at the first element that
    satisfies the predicate. *)
Lemma findIndex_found p l :
  0 <= Js.findIndex p l ->
  exists x, nth_error l (Z.to_nat (Js.findIndex p l)) = Some x
            /\ p x = true
            /\ Js.findIndex p l < Z.of_nat (List.length l).
Proof.
  induction l as [|x r IH]; simpl; [lia|].
  destruct (p x) eqn:Hx.
  - intros _. exists x. simpl. repeat split; auto; lia.
  - destruct (Z.ltb_spec (Js.findIndex p r) 0) as [Hlt|Hge]; [lia|].
    intros _. destruct (IH Hge) as (y & Hy & Hp & Hlen).
    exists y. replace (Z.to_nat (Js.findIndex p r + 1))
      with (S (Z.to_nat (Js.findIndex p r))) by lia.
    simpl. repeat split; auto; lia.
Qed.

Lemma findIndex_exists p l x :
  In x l -> p x = true -> 0 <= Js.findIndex p l.
Proof.
  induction l as [|y r IH]; simpl; [tauto|].
  intros [->|Hin] Hp.
  - rewrite Hp. lia.
  - destruct (p y); [lia|]. specialize (IH Hin Hp).
    destruct (Z.ltb_spec (Js.findIndex p r) 0); lia.
Qed.

Lemma removeAt_length i l x :
  nth_error l i = Some x -> S (List.length (removeAt i l)) = List.length l.
Proof.
  intros H. unfold removeAt.
  assert (i < List.length l)%nat by (apply nth_error_Some; congruence).
  rewrite length_app, length_firstn, length_skipn. lia.
Qed.

Lemma nth_error_split_at i l x :
  nth_error l i = Some x -> l = firstn i l ++ x :: skipn (S i) l.
Proof.
  revert l; induction i as [|i IH]; intros [|y r]; simpl; try discriminate.
  - now intros [= ->].
  - intros H. f_equal. now apply IH.
Qed.

Lemma removeAt_insertAt_perm i j l x :
  nth_error l i = Some x -> Permutation (insertAt j x (removeAt i l)) l.
Proof.
  intros H. unfold insertAt.
  rewrite <- Permutation_middle, firstn_skipn.
  rewrite (nth_error_split_at i l x H) at 2.
  unfold removeAt. now rewrite <- Permutation_middle.
Qed.

Lemma splice_at l (start : Z) (n : nat) (items : list A) :
  0 <= start <= Z.of_nat (List.length l) ->
  Js.splice l start n items
  = (firstn n (skipn (Z.to_nat start) l),
     firstn (Z.to_nat start) l ++ items ++ skipn n (skipn (Z.to_nat start) l)).
Proof.
  intros H. unfold Js.splice, Js.spliceStart.
  destruct (Z.ltb_spec start 0) as [?|_]; [lia|].
  now rewrite Nat.min_l by lia.
Qed.

(** In range, [arrayMove] takes the element out and puts it in at the
    target index. *)
Lemma arrayMove_in_range l (from to : Z) x :
  0 <= from -> nth_error l (Z.to_nat from) = Some x ->
  0 <= to < Z.of_nat (List.length l) ->
  Js.arrayMove l from to
  = insertAt (Z.to_nat to) x (removeAt (Z.to_nat from) l).
Proof.
  intros Hfrom Hx Hto.
  assert (Hlt : (Z.to_nat from < List.length l)%nat)
    by (apply nth_error_Some; congruence).
  pose proof (removeAt_length _ _ _ Hx) as Hlen.
  assert (Hskip : skipn (Z.to_nat from) l = x :: skipn (S (Z.to_nat from)) l).
  { rewrite (nth_error_split_at _ _ _ Hx) at 1.
    rewrite skipn_app, length_firstn.
    rewrite Nat.min_l by lia. rewrite Nat.sub_diag.
    rewrite skipn_all2 by (rewrite length_firstn; lia). reflexivity. }
  unfold Js.arrayMove.
  destruct (Z.ltb_spec to 0) as [?|_]; [lia|].
  rewrite splice_at by lia. rewrite Hskip.
  remember (skipn (S (Z.to_nat from)) l) as rest eqn:Hrest.
  cbn [firstn skipn app]. subst rest.
  fold (removeAt (Z.to_nat from) l).
  rewrite splice_at by lia. reflexivity.
Qed.

Lemma Subseq_filter p l : Subseq (List.filter p l) l.
Proof.
  induction l as [|x r IH]; simpl; [constructor|].
  destruct (p x); constructor; auto.
Qed.

End ArrayFacts.

Section FilterFacts.
Context {A : Type}.
Implicit Types (l : list A) (p : A -> bool).

Lemma filter_all p l : (forall x, In x l -> p x = true) -> List.filter p l = l.
Proof.
  induction l as [|x r IH]; simpl; intros H; [reflexivity|].
  rewrite (H x) by auto. f_equal. apply IH. auto.
Qed.

Lemma filter_none p l : (forall x, In x l -> p x = false) -> List.filter p l = [].
Proof.
  induction l as [|x r IH]; simpl; intros H; [reflexivity|].
  rewrite (H x) by auto. apply IH. auto.
Qed.

Lemma filter_In_true p l x : In x (List.filter p l) -> p x = true.
Proof. intros H. now apply filter_In in H. Qed.

(** The two filters of [handleDragEnd] split the collection. *)
Lemma filter_split_perm p l :
  Permutation (List.filter (fun x => negb (p x)) l ++ List.filter p l) l.
Proof.
  induction l as [|x r IH]; simpl; [constructor|].
  destruct (p x); simpl.
  - rewrite <- Permutation_middle. now constructor.
  - now constructor.
Qed.

End FilterFacts.

(** In range, [reorder] is the other tasks followed by the moved
    subsequence. *)
Lemma reorder_in_range P (i j : Z) (l : list Task.t) :
  0 <= i < Z.of_nat (List.length (List.filter (hasPriority P) l)) ->
  0 <= j < Z.of_nat (List.length (List.filter (hasPriority P) l)) ->
  i <> j ->
  exists x,
    nth_error (List.filter (hasPriority P) l) (Z.to_nat i) = Some x
    /\ reorder P i j l
       = List.filter (fun t => negb (hasPriority P t)) l
         ++ insertAt (Z.to_nat j) x
              (removeAt (Z.to_nat i) (List.filter (hasPriority P) l)).
Proof.
  intros Hi Hj Hij.
  destruct (nth_error (List.filter (hasPriority P) l) (Z.to_nat i)) as [x|] eqn:Hx.
  - exists x. split; [reflexivity|].
    unfold reorder. destruct (Z.eqb_spec i j) as [?|_]; [contradiction|].
    cbn [negb].
    rewrite (arrayMove_in_range _ i j x); [reflexivity|lia|exact Hx|lia].
  - apply nth_error_None in Hx. lia.
Qed.

(** The indices [handleDragEnd] passes to [arrayMove] are positions of the
    priority's subsequence, and they differ exactly when the two ids do. *)
Lemma handleDragEnd_indices (l : list Task.t) activeId overId a o :
  List.find (hasId activeId) l = Some a ->
  List.find (hasId overId) l = Some o ->
  Task.priority a = Task.priority o ->
  let sub := List.filter (hasPriority (Task.priority a)) l in
  let i := Js.findIndex (hasId activeId) sub in
  let j := Js.findIndex (hasId overId) sub in
  0 <= i < Z.of_nat (List.length sub)
  /\ 0 <= j < Z.of_nat (List.length sub)
  /\ (i = j <-> activeId = overId).
Proof.
  intros Ha Ho Hp sub i j.
  apply find_some in Ha. destruct Ha as [Hain Haid].
  apply find_some in Ho. destruct Ho as [Hoin Hoid].
  assert (Hi : 0 <= i).
  { apply (findIndex_exists _ _ a); [|exact Haid].
    apply filter_In. split; [exact Hain|]. apply Priority_eqb_refl. }
  assert (Hj : 0 <= j).
  { apply (findIndex_exists _ _ o); [|exact Hoid].
    apply filter_In. split; [exact Hoin|].
    unfold hasPriority. rewrite Hp. apply Priority_eqb_refl. }
  destruct (findIndex_found _ _ Hi) as (x & Hx & Hxid & Hilt).
  destruct (findIndex_found _ _ Hj) as (y & Hy & Hyid & Hjlt).
  fold i in Hx, Hilt. fold j in Hy, Hjlt.
  repeat split; try lia.
  - intros E. rewrite E in Hx. rewrite Hx in Hy. injection Hy as ->.
    unfold hasId in Hxid, Hyid.
    apply String.eqb_eq in Hxid, Hyid. congruence.
  - intros ->. reflexivity.
Qed.

(** ** Reordering (claims C1, C2, C7) *)

(** C1, as stated, fails: dragging task 1 onto task 4 (both high, with an
    urgent and a low task between them) does not write the reordered high
    tasks back into positions 0 and 3; it moves them behind the other
    tasks, so the urgent task leaves position 1. *)
Lemma C1_reorder_clusters :
  reorder high 0 1 Examples.fourTasks
    = [Examples.task2; Examples.task3; Examples.task4; Examples.task1]
  /\ reorder_spliced high 0 1 Examples.fourTasks
    = [Examples.task4; Examples.task2; Examples.task3; Examples.task1]
  /\ reorder high 0 1 Examples.fourTasks
     <> reorder_spliced high 0 1 Examples.fourTasks
  /\ nth_error Examples.fourTasks 1 = Some Examples.task2
  /\ nth_error (reorder high 0 1 Examples.fourTasks) 1 <> Some Examples.task2
  /\ tasks (handleDragEnd (mkDragEvent "1" (Some "4")) Examples.fourState)
     = reorder high 0 1 Examples.fourTasks.
Proof.
  repeat split; try reflexivity; vm_compute; discriminate.
Qed.

(** C1, amended: for two distinct positions of the subsequence of priority
    [P], [reorder] takes the task at [fromIndex] out of that subsequence and
    puts it back in at [toIndex]; the new collection is the tasks of the
    other priorities, in their order, followed by the reordered
    subsequence. *)
Theorem C1_reorder_moves_then_appends P (fromIndex toIndex : Z) (l : list Task.t) :
  0 <= fromIndex < Z.of_nat (List.length (List.filter (hasPriority P) l)) ->
  0 <= toIndex < Z.of_nat (List.length (List.filter (hasPriority P) l)) ->
  fromIndex <> toIndex ->
  exists moved,
    nth_error (List.filter (hasPriority P) l) (Z.to_nat fromIndex) = Some moved
    /\ reorder P fromIndex toIndex l
       = List.filter (fun t => negb (hasPriority P t)) l
         ++ insertAt (Z.to_nat toIndex) moved
              (removeAt (Z.to_nat fromIndex) (List.filter (hasPriority P) l))
    /\ nth_error (reorder P fromIndex toIndex l)
         (List.length (List.filter (fun t => negb (hasPriority P t)) l)
          + Z.to_nat toIndex)
       = Some moved.
Proof.
  intros Hi Hj Hij.
  destruct (reorder_in_range P fromIndex toIndex l Hi Hj Hij) as (x & Hx & Hr).
  exists x. split; [exact Hx|]. split; [exact Hr|].
  rewrite Hr, nth_error_app2 by lia.
  replace (_ + Z.to_nat toIndex - _)%nat with (Z.to_nat toIndex) by lia.
  unfold insertAt.
  pose proof (removeAt_length _ _ _ Hx) as Hlen.
  rewrite nth_error_app2 by (rewrite length_firstn; lia).
  rewrite length_firstn, Nat.min_l by lia.
  now rewrite Nat.sub_diag.
Qed.

Lemma C1_reorder_moves_then_appends_witness :
  exists moved,
    nth_error (List.filter (hasPriority high) Examples.fourTasks) (Z.to_nat 0)
      = Some moved
    /\ reorder high 0 1 Examples.fourTasks
       = List.filter (fun t => negb (hasPriority high t)) Examples.fourTasks
         ++ insertAt (Z.to_nat 1) moved
              (removeAt (Z.to_nat 0)
                 (List.filter (hasPriority high) Examples.fourTasks))
    /\ nth_error (reorder high 0 1 Examples.fourTasks)
         (List.length
            (List.filter (fun t => negb (hasPriority high t)) Examples.fourTasks)
          + Z.to_nat 1)
       = Some moved.
Proof.
  apply (C1_reorder_moves_then_appends high 0 1 Examples.fourTasks);
    simpl; lia.
Defined.

(** C2: for positions [i], [j] of the subsequence of priority [P],
    [reorder P i j] keeps the tasks of priority [P] (and so their ids) up
    to their order, keeps the whole collection up to order, and leaves the
    sequence of the tasks of other priorities as it was. *)
Theorem C2_reorder_preserves P (i j : Z) (l : list Task.t) :
  0 <= i < Z.of_nat (List.length (List.filter (hasPriority P) l)) ->
  0 <= j < Z.of_nat (List.length (List.filter (hasPriority P) l)) ->
  Permutation (List.filter (hasPriority P) (reorder P i j l))
              (List.filter (hasPriority P) l)
  /\ Permutation (ids (List.filter (hasPriority P) (reorder P i j l)))
                 (ids (List.filter (hasPriority P) l))
  /\ Permutation (reorder P i j l) l
  /\ List.filter (fun t => negb (hasPriority P t)) (reorder P i j l)
     = List.filter (fun t => negb (hasPriority P t)) l.
Proof.
  intros Hi Hj.
  destruct (Z.eq_dec i j) as [->|Hij].
  { unfold reorder. rewrite Z.eqb_refl. cbn [negb]. repeat split; reflexivity. }
  destruct (reorder_in_range P i j l Hi Hj Hij) as (x & Hx & ->).
  set (sub := List.filter (hasPriority P) l) in *.
  set (others := List.filter (fun t => negb (hasPriority P t)) l).
  set (moved := insertAt (Z.to_nat j) x (removeAt (Z.to_nat i) sub)).
  assert (Hperm : Permutation moved sub) by (apply removeAt_insertAt_perm; exact Hx).
  assert (HmovedP : forall y, In y moved -> hasPriority P y = true).
  { intros y Hy. apply (filter_In_true (hasPriority P) l).
    apply (Permutation_in _ Hperm Hy). }
  assert (HothersP : forall y, In y others -> hasPriority P y = false).
  { intros y Hy. apply filter_In_true in Hy. now apply negb_true_iff in Hy. }
  assert (E1 : List.filter (hasPriority P) (others ++ moved) = moved).
  { rewrite filter_app, (filter_none _ others HothersP), (filter_all _ moved HmovedP).
    reflexivity. }
  assert (E2 : List.filter (fun t => negb (hasPriority P t)) (others ++ moved)
               = others).
  { rewrite filter_app, (filter_all _ others), (filter_none _ moved).
    - apply app_nil_r.
    - intros y Hy. now rewrite (HmovedP y Hy).
    - intros y Hy. now rewrite (HothersP y Hy). }
  rewrite E1, E2. repeat split.
  - exact Hperm.
  - unfold ids. now apply Permutation_map.
  - transitivity (others ++ sub).
    + now apply Permutation_app_head.
    + apply filter_split_perm.
Qed.

Lemma C2_reorder_preserves_witness :
  Permutation (List.filter (hasPriority high) (reorder high 1 0 Examples.fourTasks))
              (List.filter (hasPriority high) Examples.fourTasks)
  /\ Permutation
       (ids (List.filter (hasPriority high) (reorder high 1 0 Examples.fourTasks)))
       (ids (List.filter (hasPriority high) Examples.fourTasks))
  /\ Permutation (reorder high 1 0 Examples.fourTasks) Examples.fourTasks
  /\ List.filter (fun t => negb (hasPriority high t))
       (reorder high 1 0 Examples.fourTasks)
     = List.filter (fun t => negb (hasPriority high t)) Examples.fourTasks.
Proof.
  apply (C2_reorder_preserves high 1 0 Examples.fourTasks); simpl; lia.
Defined.

(** C7: [handleDragEnd] always clears the active-task marker and touches no
    cell but [tasks].  When the target id is that of another task of the
    active task's priority, the two positions found in that priority's
    subsequence are valid and distinct and the collection becomes
    [reorder] at these positions; in every other case (no target, a target
    that is no task, a task of another priority, the active task itself, no
    active task) the collection stays as it is. *)
Theorem C7_handleDragEnd (event : DragEvent) (st : State) :
  activeTask (handleDragEnd event st) = None
  /\ handleDragEnd event st
     = setTasks (tasks (handleDragEnd event st)) (setActiveTask None st)
  /\ (forall overId a o,
        over event = Some overId ->
        List.find (hasId (active event)) (tasks st) = Some a ->
        List.find (hasId overId) (tasks st) = Some o ->
        Task.priority a = Task.priority o ->
        active event <> overId ->
        let sub := List.filter (hasPriority (Task.priority a)) (tasks st) in
        let i := Js.findIndex (hasId (active event)) sub in
        let j := Js.findIndex (hasId overId) sub in
        0 <= i < Z.of_nat (List.length sub)
        /\ 0 <= j < Z.of_nat (List.length sub)
        /\ i <> j
        /\ tasks (handleDragEnd event st) = reorder (Task.priority a) i j (tasks st))
  /\ (~ (exists overId a o,
           over event = Some overId
           /\ List.find (hasId (active event)) (tasks st) = Some a
           /\ List.find (hasId overId) (tasks st) = Some o
           /\ Task.priority a = Task.priority o
           /\ active event <> overId) ->
      tasks (handleDragEnd event st) = tasks st).
Proof.
  assert (Hshape :
    activeTask (handleDragEnd event st) = None
    /\ handleDragEnd event st
       = setTasks (tasks (handleDragEnd event st)) (setActiveTask None st)).
  { unfold handleDragEnd.
    destruct (over event) as [overId|]; [|split; reflexivity].
    destruct (List.find (hasId (active event)) (tasks st)) as [a|];
      [|split; reflexivity].
    destruct (List.find (hasId overId) (tasks st)) as [o|]; [|split; reflexivity].
    destruct (Priority_eqb (Task.priority a) (Task.priority o));
      [|split; reflexivity].
    destruct (negb _); split; reflexivity. }
  destruct Hshape as [Hnone Hshape].
  split; [exact Hnone|]. split; [exact Hshape|]. split.
  - intros overId a o Hover Ha Ho Hp Hne sub i j.
    destruct (handleDragEnd_indices _ _ _ _ _ Ha Ho Hp) as (Hi & Hj & Hij).
    fold sub in Hi, Hj, Hij. fold i in Hi, Hij. fold j in Hj, Hij.
    assert (Hneq : i <> j) by (intros E; apply Hne, Hij, E).
    repeat split; try lia.
    unfold handleDragEnd, reorder. rewrite Hover, Ha, Ho.
    rewrite (proj2 (Priority_eqb_eq _ _) Hp).
    fold sub. fold i. fold j.
    destruct (Z.eqb_spec i j) as [?|_]; [contradiction|]. reflexivity.
  - intros Hnot. unfold handleDragEnd.
    destruct (over event) as [overId|] eqn:Hover; [|reflexivity].
    destruct (List.find (hasId (active event)) (tasks st)) as [a|] eqn:Ha;
      [|reflexivity].
    destruct (List.find (hasId overId) (tasks st)) as [o|] eqn:Ho; [|reflexivity].
    destruct (Priority_eqb (Task.priority a) (Task.priority o)) eqn:Hp;
      [|reflexivity].
    apply Priority_eqb_eq in Hp.
    destruct (handleDragEnd_indices _ _ _ _ _ Ha Ho Hp) as (_ & _ & Hij).
    match goal with |- context [negb (?i =? ?j)] =>
      destruct (Z.eqb_spec i j) as [E|E] end; [reflexivity|].
    exfalso. apply Hnot. exists overId, a, o. repeat split; auto.
    intros Eid. apply E, Hij, Eid.
Qed.

Lemma C7_handleDragEnd_witness :
  activeTask (handleDragEnd (mkDragEvent "1" (Some "4")) Examples.fourState) = None
  /\ tasks (handleDragEnd (mkDragEvent "1" (Some "4")) Examples.fourState)
     = reorder high 0 1 Examples.fourTasks
  /\ tasks (handleDragEnd (mkDragEvent "1" (Some "high")) Examples.fourState)
     = Examples.fourTasks
  /\ tasks (handleDragEnd (mkDragEvent "1" (Some "1")) Examples.fourState)
     = Examples.fourTasks.
Proof.
  split; [apply (C7_handleDragEnd (mkDragEvent "1" (Some "4")) Examples.fourState)|].
  split.
  - apply (proj1 (proj2 (proj2
      (C7_handleDragEnd (mkDragEvent "1" (Some "4")) Examples.fourState)))
      "4" Examples.task1 Examples.task4);
      try reflexivity; discriminate.
  - split.
    + apply (proj2 (proj2 (proj2
        (C7_handleDragEnd (mkDragEvent "1" (Some "high")) Examples.fourState)))).
      intros (overId & a & o & Hover & _ & Ho & _).
      injection Hover as <-. discriminate Ho.
    + apply (proj2 (proj2 (proj2
        (C7_handleDragEnd (mkDragEvent "1" (Some "1")) Examples.fourState)))).
      intros (overId & a & o & Hover & _ & _ & _ & Hne).
      injection Hover as <-. now apply Hne.
Defined.

(** ** Delete (claim C3) *)

Lemma setTasks_same (st : State) : setTasks (tasks st) st = st.
Proof. now destruct st. Qed.

Lemma find_hasId_absent taskId (l : list Task.t) :
  ~ In taskId (ids l) -> List.find (hasId taskId) l = None.
Proof.
  intros H. destruct (List.find (hasId taskId) l) as [t|] eqn:E; [|reflexivity].
  apply find_some in E. destruct E as [Hin Hid].
  exfalso. apply H. unfold hasId in Hid. apply String.eqb_eq in Hid.
  subst taskId. unfold ids. now apply in_map.
Qed.

Lemma filter_hasId_absent taskId (l : list Task.t) :
  ~ In taskId (ids l) -> List.filter (fun t => negb (hasId taskId t)) l = l.
Proof.
  intros H. apply filter_all. intros t Ht.
  apply negb_true_iff. unfold hasId. apply String.eqb_neq.
  intros E. apply H. subst taskId. unfold ids. now apply in_map.
Qed.

(** C3, as stated, fails: deleting an id that is not in the collection, and
    deleting task 1 a second time, both raise the ordinary "Task Deleted"
    toast and no failure. *)
Lemma C3_delete_absent_reports_success :
  ~ In "9" (ids (tasks Examples.initialState))
  /\ handleDeleteTask "9" Examples.initialState
     = (Examples.initialState, [deletedUndefined])
  /\ ~ reportsFailure (snd (handleDeleteTask "9" Examples.initialState))
  /\ (let st1 := fst (handleDeleteTask "1" Examples.initialState) in
      ~ In "1" (ids (tasks st1))
      /\ handleDeleteTask "1" st1 = (st1, [deletedUndefined])
      /\ ~ reportsFailure (snd (handleDeleteTask "1" st1))).
Proof.
  assert (Hnf : ~ reportsFailure [deletedUndefined]).
  { intros (t & [<-|[]] & Hd). discriminate Hd. }
  split; [|split; [reflexivity|split; [exact Hnf|]]].
  - simpl. intuition discriminate.
  - cbv zeta. split; [|split; [reflexivity|exact Hnf]].
    simpl. intuition discriminate.
Qed.

(** C3, amended: for an id that is not in the collection, [handleDeleteTask]
    leaves the state, and with it the collection, as it was; it reports no
    failure but raises the "Task Deleted" toast, naming the task
    "undefined". *)
Theorem C3_delete_absent (taskId : string) (st : State) :
  ~ In taskId (ids (tasks st)) ->
  fst (handleDeleteTask taskId st) = st
  /\ snd (handleDeleteTask taskId st) = [deletedUndefined]
  /\ ~ reportsFailure (snd (handleDeleteTask taskId st)).
Proof.
  intros H. unfold handleDeleteTask. cbn [fst snd].
  rewrite (filter_hasId_absent _ _ H), (find_hasId_absent _ _ H), setTasks_same.
  split; [reflexivity|]. split; [reflexivity|].
  intros (t & [<-|[]] & Hd). discriminate Hd.
Qed.

Lemma C3_delete_absent_witness :
  fst (handleDeleteTask "9" Examples.initialState) = Examples.initialState
  /\ snd (handleDeleteTask "9" Examples.initialState) = [deletedUndefined]
  /\ ~ reportsFailure (snd (handleDeleteTask "9" Examples.initialState)).
Proof.
  apply (C3_delete_absent "9" Examples.initialState).
  simpl. intuition discriminate.
Defined.

(** ** Create and update (claims C4, C9) *)

(** C4, as stated, fails on "a fresh id": the id is cut from a random number
    and is not compared with the ids in use.  When [Math.random()] returns
    0.5 (in base 36, [0.i]) for two creations, both tasks get the id [i]. *)
Lemma C4_create_id_not_fresh :
  let env1 := mkEnv "2024-01-20T12:00:00.000Z" "0.i" in
  let env2 := mkEnv "2024-01-20T12:05:00.000Z" "0.i" in
  let st1 := handleSaveTask env1 Examples.designDraft [] Examples.initialState in
  let st2 := handleSaveTask env2 Examples.designDraft [] st1 in
  editingTask st1 = None
  /\ ids (tasks st1) = ["1"; "2"; "3"; "i"]
  /\ ids (tasks st2) = ["1"; "2"; "3"; "i"; "i"]
  /\ In (generateId env2) (ids (tasks st1))
  /\ ~ NoDup (ids (tasks st2)).
Proof.
  cbv zeta. repeat split; try reflexivity.
  - simpl. auto.
  - intros H. vm_compute in H.
    repeat match goal with
           | H : NoDup (_ :: _) |- _ => inversion H; clear H; subst
           end.
    match goal with H : ~ In _ [_] |- _ => apply H; now left end.
Qed.

(** C4, amended: with no task being edited, [handleSaveTask] appends one
    task to the collection and leaves the tasks before it as they were; the
    new task has status [todo], both timestamps equal to the current
    instant, the draft's fields and the images as given, and the id that
    [generateId] cut from the random number.  That id is not compared with
    the ids in use: ids stay distinct when it happens to be new. *)
Theorem C4_create (env : Env) (taskData : TaskFormData.t)
    (imgs : list string) (st : State) :
  editingTask st = None ->
  exists t,
    handleSaveTask env taskData imgs st = setTasks (tasks st ++ [t]) st
    /\ Task.status t = todo
    /\ Task.createdAt t = Task.updatedAt t
    /\ Task.createdAt t = now env
    /\ Task.id t = generateId env
    /\ Task.name t = TaskFormData.name taskData
    /\ Task.assignedTo t = TaskFormData.assignedTo taskData
    /\ Task.startDate t = TaskFormData.startDate taskData
    /\ Task.endDate t = TaskFormData.endDate taskData
    /\ Task.priority t = TaskFormData.priority taskData
    /\ Task.description t = TaskFormData.description taskData
    /\ Task.images t = imgs
    /\ (NoDup (ids (tasks st)) ->
        ~ In (generateId env) (ids (tasks st)) ->
        NoDup (ids (tasks (handleSaveTask env taskData imgs st)))).
Proof.
  intros He. exists (newTaskOf env taskData imgs (now env)).
  unfold handleSaveTask. rewrite He. cbn [tasks setTasks].
  repeat split.
  intros Hnd Hfresh. unfold ids. rewrite map_app. cbn [List.map newTaskOf Task.id].
  apply NoDup_app; [exact Hnd|repeat constructor; simpl; tauto|].
  intros x Hx [<-|[]]. now apply Hfresh.
Qed.

Lemma C4_create_witness :
  exists t,
    handleSaveTask Examples.env Examples.designDraft [] Examples.initialState
      = setTasks (tasks Examples.initialState ++ [t]) Examples.initialState
    /\ Task.status t = todo
    /\ Task.createdAt t = Task.updatedAt t
    /\ Task.createdAt t = now Examples.env
    /\ Task.id t = "4fzyo82mv"
    /\ Task.images t = [].
Proof.
  destruct (C4_create Examples.env Examples.designDraft [] Examples.initialState eq_refl)
    as (t & H1 & H2 & H3 & H4 & H5 & _ & _ & _ & _ & _ & _ & H12 & _).
  exists t. repeat split; assumption.
Defined.

(** Position by position, a [map] that rewrites the tasks of one id. *)
Lemma nth_error_map_byId (f : Task.t -> Task.t) (i : string) (l : list Task.t) k t :
  nth_error l k = Some t ->
  nth_error (List.map (fun x => if String.eqb (Task.id x) i then f x else x) l) k
  = Some (if String.eqb (Task.id t) i then f t else t).
Proof. intros H. now rewrite nth_error_map, H. Qed.

(** C9: when a task is being edited, [handleSaveTask] changes no cell but
    [tasks], keeps every task at its position, and leaves the tasks whose id
    is not the edited one as they were.  A task with the edited id keeps its
    id, createdAt and status, takes name, assignedTo, startDate, endDate and
    priority from the draft, the description when the draft has one, the
    images as given, and the current instant as updatedAt. *)
Theorem C9_update (env : Env) (taskData : TaskFormData.t) (imgs : list string)
    (st : State) (editing : Task.t) :
  editingTask st = Some editing ->
  handleSaveTask env taskData imgs st
    = setTasks (tasks (handleSaveTask env taskData imgs st)) st
  /\ List.length (tasks (handleSaveTask env taskData imgs st))
     = List.length (tasks st)
  /\ forall k t,
       nth_error (tasks st) k = Some t ->
       exists t',
         nth_error (tasks (handleSaveTask env taskData imgs st)) k = Some t'
         /\ (Task.id t <> Task.id editing -> t' = t)
         /\ (Task.id t = Task.id editing ->
             Task.id t' = Task.id t
             /\ Task.createdAt t' = Task.createdAt t
             /\ Task.status t' = Task.status t
             /\ Task.updatedAt t' = now env
             /\ Task.name t' = TaskFormData.name taskData
             /\ Task.assignedTo t' = TaskFormData.assignedTo taskData
             /\ Task.startDate t' = TaskFormData.startDate taskData
             /\ Task.endDate t' = TaskFormData.endDate taskData
             /\ Task.priority t' = TaskFormData.priority taskData
             /\ Task.description t'
                = match TaskFormData.description taskData with
                  | Some d => Some d
                  | None => Task.description t
                  end
             /\ Task.images t' = imgs).
Proof.
  intros He. unfold handleSaveTask. rewrite He. cbn [tasks setTasks].
  split; [reflexivity|]. split; [apply length_map|].
  intros k t Hk.
  rewrite (nth_error_map_byId
             (fun task => mergeDraft task taskData imgs (now env)) _ _ _ _ Hk).
  eexists. split; [reflexivity|].
  destruct (String.eqb_spec (Task.id t) (Task.id editing)) as [E|E].
  - split; [intros Hne; contradiction|]. intros _. repeat split.
  - split; [reflexivity|]. intros Heq; contradiction.
Qed.

Lemma C9_update_witness :
  let st := handleEditTask Examples.task1 Examples.initialState in
  let st' := handleSaveTask Examples.env Examples.designDraft ["img"] st in
  exists t',
    nth_error (tasks st') 0 = Some t'
    /\ Task.id t' = "1"
    /\ Task.createdAt t' = "2024-01-10T10:00:00Z"
    /\ Task.status t' = todo
    /\ Task.updatedAt t' = "2024-01-20T12:00:00.000Z"
    /\ Task.name t' = "Design"
    /\ nth_error (tasks st') 1 = Some Examples.task2.
Proof.
  cbv zeta.
  pose proof (C9_update Examples.env Examples.designDraft ["img"]
                (handleEditTask Examples.task1 Examples.initialState)
                Examples.task1 eq_refl) as (_ & _ & H).
  destruct (H 0%nat Examples.task1 eq_refl) as (t' & H0 & _ & Hsame).
  destruct (Hsame eq_refl) as (Hid & Hc & Hs & Hu & Hn & _).
  destruct (H 1%nat Examples.task2 eq_refl) as (t2 & H1 & Hother & _).
  exists t'.
  split; [exact H0|]. split; [exact Hid|]. split; [exact Hc|].
  split; [exact Hs|]. split; [exact Hu|]. split; [exact Hn|].
  rewrite H1. f_equal. apply Hother. discriminate.
Defined.

(** ** Drag over (claim C6) *)

(** C6: when the target id is a priority tag other than the priority of the
    task found for the active id, [handleDragOver] changes no cell but
    [tasks] and keeps every task at its position; a task with the active id
    gets the target priority and the current instant as updatedAt and keeps
    its other fields, and the tasks of other ids are as they were.  With no
    target, no task for the active id, a target that is no priority tag, or
    the tag of the task's own priority, the state is as it was. *)
Theorem C6_handleDragOver (env : Env) (event : DragEvent) (st : State) :
  (forall overId p a,
     over event = Some overId ->
     Priority_of_tag overId = Some p ->
     List.find (hasId (active event)) (tasks st) = Some a ->
     Task.priority a <> p ->
     handleDragOver env event st
       = setTasks (tasks (handleDragOver env event st)) st
     /\ List.length (tasks (handleDragOver env event st)) = List.length (tasks st)
     /\ In (withPriority a p (now env)) (tasks (handleDragOver env event st))
     /\ forall k t,
          nth_error (tasks st) k = Some t ->
          exists t',
            nth_error (tasks (handleDragOver env event st)) k = Some t'
            /\ (Task.id t <> active event -> t' = t)
            /\ (Task.id t = active event ->
                Task.priority t' = p
                /\ Task.updatedAt t' = now env
                /\ Task.id t' = Task.id t
                /\ Task.name t' = Task.name t
                /\ Task.assignedTo t' = Task.assignedTo t
                /\ Task.startDate t' = Task.startDate t
                /\ Task.endDate t' = Task.endDate t
                /\ Task.status t' = Task.status t
                /\ Task.images t' = Task.images t
                /\ Task.description t' = Task.description t
                /\ Task.createdAt t' = Task.createdAt t))
  /\ (over event = None
      \/ List.find (hasId (active event)) (tasks st) = None
      \/ (exists overId, over event = Some overId
                         /\ Priority_of_tag overId = None)
      \/ (exists overId a, over event = Some overId
                           /\ List.find (hasId (active event)) (tasks st) = Some a
                           /\ overId = Priority_tag (Task.priority a)) ->
      handleDragOver env event st = st).
Proof.
  split.
  - intros overId p a Hover Hp Ha Hne.
    unfold handleDragOver. rewrite Hover, Ha, Hp.
    rewrite (proj2 (Priority_eqb_neq _ _) Hne). cbn [negb tasks setTasks].
    split; [reflexivity|]. split; [apply length_map|]. split.
    + apply find_some in Ha. destruct Ha as [Hin Hid].
      apply in_map_iff. exists a. split; [|exact Hin].
      unfold hasId in Hid. now rewrite Hid.
    + intros k t Hk.
      rewrite (nth_error_map_byId
                 (fun task => withPriority task p (now env)) _ _ _ _ Hk).
      eexists. split; [reflexivity|].
      destruct (String.eqb_spec (Task.id t) (active event)) as [E|E].
      * split; [intros Hn; contradiction|]. intros _. repeat split.
      * split; [reflexivity|]. intros Heq; contradiction.
  - unfold handleDragOver.
    intros [Hover|[Ha|[(overId & Hover & Hp)|(overId & a & Hover & Ha & Htag)]]].
    + now rewrite Hover.
    + rewrite Ha. now destruct (over event).
    + rewrite Hover, Hp. now destruct (List.find _ _).
    + rewrite Hover, Ha, Htag, Priority_of_tag_tag, Priority_eqb_refl.
      reflexivity.
Qed.

Lemma C6_handleDragOver_witness :
  (let st' := handleDragOver Examples.env (mkDragEvent "1" (Some "urgent"))
                Examples.initialState in
   In (withPriority Examples.task1 urgent (now Examples.env)) (tasks st')
   /\ List.length (tasks st') = 3%nat)
  /\ handleDragOver Examples.env (mkDragEvent "1" (Some "high"))
       Examples.initialState = Examples.initialState
  /\ handleDragOver Examples.env (mkDragEvent "1" None)
       Examples.initialState = Examples.initialState
  /\ handleDragOver Examples.env (mkDragEvent "1" (Some "2"))
       Examples.initialState = Examples.initialState.
Proof.
  split.
  - cbv zeta.
    destruct (proj1 (C6_handleDragOver Examples.env
                       (mkDragEvent "1" (Some "urgent")) Examples.initialState)
                "urgent" urgent Examples.task1 eq_refl eq_refl eq_refl)
      as (_ & Hlen & Hin & _).
    + discriminate.
    + split; [exact Hin|exact Hlen].
  - split; [|split].
    + apply (proj2 (C6_handleDragOver Examples.env
                      (mkDragEvent "1" (Some "high")) Examples.initialState)).
      right; right; right. exists "high", Examples.task1. repeat split.
    + apply (proj2 (C6_handleDragOver Examples.env
                      (mkDragEvent "1" None) Examples.initialState)).
      left. reflexivity.
    + apply (proj2 (C6_handleDragOver Examples.env
                      (mkDragEvent "1" (Some "2")) Examples.initialState)).
      right; right; left. exists "2". split; reflexivity.
Defined.

(** ** Facts about strings *)

Lemma prefix_append q s :
  String.prefix q s = true <-> exists post, s = String.append q post.
Proof.
  revert s. induction q as [|c q IH]; intros s; simpl.
  - split; [intros _; now exists s|]. intros _. now destruct s.
  - destruct s as [|d s]; simpl.
    + split; [discriminate|]. intros (post & H). discriminate H.
    + destruct (ascii_dec c d) as [->|Hne].
      * rewrite IH. split; intros (post & H); exists post; congruence.
      * split; [discriminate|]. intros (post & H). congruence.
Qed.

Lemma includes_unfold s q :
  Js.includes s q
  = if String.prefix q s then true
    else match s with
         | EmptyString => false
         | String _ r => Js.includes r q
         end.
Proof. now destruct s. Qed.

(** [includes] decides the substring relation. *)
Lemma includes_Occurs s q : Js.includes s q = true <-> Occurs q s.
Proof.
  split.
  - induction s as [|c r IH]; rewrite includes_unfold;
      destruct (String.prefix q _) eqn:E.
    + intros _. apply prefix_append in E. destruct E as (post & E).
      now exists EmptyString, post.
    + discriminate.
    + intros _. apply prefix_append in E. destruct E as (post & E).
      now exists EmptyString, post.
    + intros H. destruct (IH H) as (pre & post & ->).
      now exists (String c pre), post.
  - intros (pre & post & ->). induction pre as [|c pre IH].
    + rewrite includes_unfold.
      assert (E : String.prefix q (String.append q post) = true)
        by (apply prefix_append; now exists post).
      cbn [String.append]. now rewrite E.
    + rewrite includes_unfold. cbn [String.append]. rewrite IH.
      now destruct (String.prefix q _).
Qed.

Lemma truthy_false s : Js.truthy s = false <-> s = EmptyString.
Proof. destruct s; simpl; split; congruence. Qed.

(** ** The views and the form, over any host (claims C5, C8, C10) *)

(** The four columns hold the tasks of a list, each once. *)
Lemma buckets_perm (l : list Task.t) :
  Permutation
    (List.filter (fun t => Priority_eqb (Task.priority t) urgent) l
     ++ List.filter (fun t => Priority_eqb (Task.priority t) high) l
     ++ List.filter (fun t => Priority_eqb (Task.priority t) medium) l
     ++ List.filter (fun t => Priority_eqb (Task.priority t) low) l)
    l.
Proof.
  induction l as [|x r IH]; [constructor|].
  cbn [List.filter]. destruct (Task.priority x); cbn [Priority_eqb].
  - cbn [app]. now constructor.
  - symmetry. apply Permutation_cons_app. now symmetry.
  - symmetry. rewrite app_assoc. apply Permutation_cons_app.
    rewrite <- app_assoc. now symmetry.
  - symmetry. rewrite 2 app_assoc. apply Permutation_cons_app.
    rewrite <- 2 app_assoc. now symmetry.
Qed.

Section HostProperties.

Variable Date_parse : string -> option Z.
Variable dayString : Z -> string.

(** C8: a task is in the filtered view exactly when it is in the collection
    and matches the search (the lower-cased query occurs in the lower-cased
    name or assignee), the status filter (["all"] or the task's status) and
    the date filter (unset, or the same calendar day as createdAt).  The
    view is a subsequence of the collection; each of the four columns is a
    subsequence of the view, holds exactly the view's tasks of its priority,
    and together the columns hold every task of the view once.  The view is
    a function of the state and returns no state. *)
Theorem C8_filter_and_group (st : State) :
  (forall t,
     In t (filteredTasks Date_parse dayString st)
     <-> In t (tasks st)
         /\ searchMatches st t /\ statusMatches st t
         /\ dateMatches Date_parse dayString st t)
  /\ Subseq (filteredTasks Date_parse dayString st) (tasks st)
  /\ (forall p,
        Subseq (bucket (groupedTasks Date_parse dayString st) p)
               (filteredTasks Date_parse dayString st))
  /\ (forall p t,
        In t (bucket (groupedTasks Date_parse dayString st) p)
        <-> In t (filteredTasks Date_parse dayString st) /\ Task.priority t = p)
  /\ Permutation
       (bucket (groupedTasks Date_parse dayString st) urgent
        ++ bucket (groupedTasks Date_parse dayString st) high
        ++ bucket (groupedTasks Date_parse dayString st) medium
        ++ bucket (groupedTasks Date_parse dayString st) low)
       (filteredTasks Date_parse dayString st).
Proof.
  split; [|split; [|split; [|split]]].
  - intros t. unfold filteredTasks. rewrite filter_In, !andb_true_iff.
    assert (Hs : matchesSearch st t = true <-> searchMatches st t).
    { unfold matchesSearch, searchMatches.
      now rewrite orb_true_iff, !includes_Occurs. }
    assert (Hst : matchesStatus st t = true <-> statusMatches st t).
    { unfold matchesStatus, statusMatches.
      now rewrite orb_true_iff, !String.eqb_eq. }
    assert (Hd : matchesDate Date_parse dayString st t = true 
                 <-> dateMatches Date_parse dayString st t).
    { unfold matchesDate, dateMatches. destruct (dateFilter st) as [d|].
      - rewrite String.eqb_eq. split.
        + intros H. right. now exists d.
        + intros [H|(d' & [= <-] & H)]; [discriminate|exact H].
      - split; auto. }
    rewrite Hs, Hst, Hd. tauto.
  - apply Subseq_filter.
  - intros p. destruct p; apply Subseq_filter.
  - intros p t. destruct p; cbn [bucket groupedTasks Grouped.urgent Grouped.high
      Grouped.medium Grouped.low]; rewrite filter_In, Priority_eqb_eq; tauto.
  - apply buckets_perm.
Qed.

(** C5: a draft whose name or assignee is empty after trimming, or whose
    start date parses to a later instant than its end date, is rejected: the
    only toast is a destructive validation toast, and neither the state,
    hence the collection, nor the form changes. *)
Theorem C5_submit_rejects_invalid (env : Env) (st : State) (m : ModalState) :
  Js.trim (TaskFormData.name (formData m)) = EmptyString
  \/ Js.trim (TaskFormData.assignedTo (formData m)) = EmptyString
  \/ (exists a b,
        Date_parse (TaskFormData.startDate (formData m)) = Some a
        /\ Date_parse (TaskFormData.endDate (formData m)) = Some b
        /\ b < a) ->
  fst (fst (handleSubmit Date_parse env st m)) = st
  /\ tasks (fst (fst (handleSubmit Date_parse env st m))) = tasks st
  /\ snd (fst (handleSubmit Date_parse env st m)) = m
  /\ ValidationError (snd (handleSubmit Date_parse env st m)).
Proof.
  intros H. unfold handleSubmit.
  destruct (negb (Js.truthy (Js.trim (TaskFormData.name (formData m))))
            || negb (Js.truthy (Js.trim (TaskFormData.assignedTo (formData m)))))
    eqn:Hempty.
  - cbn [fst snd]. repeat split. eexists. split; [reflexivity|].
    split; [reflexivity|]. now left.
  - apply orb_false_iff in Hempty. destruct Hempty as [Hn Ha].
    apply negb_false_iff in Hn, Ha.
    destruct H as [H|[H|(a & b & Hs & He & Hlt)]].
    + rewrite H in Hn. discriminate Hn.
    + rewrite H in Ha. discriminate Ha.
    + unfold newDate. rewrite Hs, He. cbn [Date_gt].
      destruct (Z.ltb_spec b a) as [_|?]; [|lia].
      cbn [fst snd]. repeat split. eexists. split; [reflexivity|].
      split; [reflexivity|]. now right.
Qed.

Lemma Date_gt_parsed (s e : string) :
  Date_gt (newDate Date_parse s) (newDate Date_parse e) = true
  <-> exists a b, Date_parse s = Some a /\ Date_parse e = Some b /\ b < a.
Proof.
  unfold newDate, Date_gt.
  destruct (Date_parse s) as [a|], (Date_parse e) as [b|].
  - rewrite Z.ltb_lt. split.
    + intros H. now exists a, b.
    + intros (a' & b' & [= <-] & [= <-] & H). exact H.
  - split; [discriminate|]. intros (a' & b' & _ & H & _). discriminate H.
  - split; [discriminate|]. intros (a' & b' & H & _). discriminate H.
  - split; [discriminate|]. intros (a' & b' & H & _). discriminate H.
Qed.

(** What [handleSubmit] does once both checks have passed. *)
Lemma handleSubmit_commits (env : Env) (st : State) (m : ModalState) :
  Js.trim (TaskFormData.name (formData m)) <> EmptyString ->
  Js.trim (TaskFormData.assignedTo (formData m)) <> EmptyString ->
  Date_gt (newDate Date_parse (TaskFormData.startDate (formData m)))
          (newDate Date_parse (TaskFormData.endDate (formData m))) = false ->
  fst (fst (handleSubmit Date_parse env st m))
    = handleCloseModal (handleSaveTask env (formData m) (images m) st)
  /\ exists t, snd (handleSubmit Date_parse env st m) = [t]
               /\ destructive t = false.
Proof.
  intros Hn Ha Hd. unfold handleSubmit.
  destruct (Js.truthy (Js.trim (TaskFormData.name (formData m)))) eqn:En;
    [|apply truthy_false in En; contradiction].
  destruct (Js.truthy (Js.trim (TaskFormData.assignedTo (formData m)))) eqn:Ea;
    [|apply truthy_false in Ea; contradiction].
  rewrite Hd. cbn [negb orb fst snd formData images setIsSubmitting].
  split; [reflexivity|]. eexists. split; reflexivity.
Qed.

(** What [handleSubmit] does when the date check fails. *)
Lemma handleSubmit_rejects_dates (env : Env) (st : State) (m : ModalState) :
  Js.trim (TaskFormData.name (formData m)) <> EmptyString ->
  Js.trim (TaskFormData.assignedTo (formData m)) <> EmptyString ->
  Date_gt (newDate Date_parse (TaskFormData.startDate (formData m)))
          (newDate Date_parse (TaskFormData.endDate (formData m))) = true ->
  ValidationError (snd (handleSubmit Date_parse env st m)).
Proof.
  intros Hn Ha Hd. unfold handleSubmit.
  destruct (Js.truthy (Js.trim (TaskFormData.name (formData m)))) eqn:En;
    [|apply truthy_false in En; contradiction].
  destruct (Js.truthy (Js.trim (TaskFormData.assignedTo (formData m)))) eqn:Ea;
    [|apply truthy_false in Ea; contradiction].
  rewrite Hd. cbn [negb orb snd].
  eexists. split; [reflexivity|]. split; [reflexivity|]. now right.
Qed.

(** C10: for a draft whose name and assignee are not empty after trimming,
    the submit is rejected exactly when both dates parse and the start is
    strictly later than the end.  When a date does not parse, the submit
    reports no failure and commits through [handleSaveTask]: a created task,
    or every task with the edited id, carries the draft's two date strings
    as they are. *)
Theorem C10_submit_date_check (env : Env) (st : State) (m : ModalState) :
  Js.trim (TaskFormData.name (formData m)) <> EmptyString ->
  Js.trim (TaskFormData.assignedTo (formData m)) <> EmptyString ->
  (ValidationError (snd (handleSubmit Date_parse env st m))
   <-> exists a b,
         Date_parse (TaskFormData.startDate (formData m)) = Some a
         /\ Date_parse (TaskFormData.endDate (formData m)) = Some b
         /\ b < a)
  /\ (reportsFailure (snd (handleSubmit Date_parse env st m))
      <-> ValidationError (snd (handleSubmit Date_parse env st m)))
  /\ (Date_parse (TaskFormData.startDate (formData m)) = None
      \/ Date_parse (TaskFormData.endDate (formData m)) = None ->
      ~ reportsFailure (snd (handleSubmit Date_parse env st m))
      /\ fst (fst (handleSubmit Date_parse env st m))
         = handleCloseModal (handleSaveTask env (formData m) (images m) st)
      /\ (editingTask st = None ->
          exists t,
            tasks (fst (fst (handleSubmit Date_parse env st m))) = tasks st ++ [t]
            /\ Task.startDate t = TaskFormData.startDate (formData m)
            /\ Task.endDate t = TaskFormData.endDate (formData m))
      /\ (forall e k t,
            editingTask st = Some e ->
            nth_error (tasks st) k = Some t ->
            Task.id t = Task.id e ->
            exists t',
              nth_error (tasks (fst (fst (handleSubmit Date_parse env st m)))) k
                = Some t'
              /\ Task.startDate t' = TaskFormData.startDate (formData m)
              /\ Task.endDate t' = TaskFormData.endDate (formData m))).
Proof.
  intros Hn Ha.
  set (gt := Date_gt (newDate Date_parse (TaskFormData.startDate (formData m)))
                     (newDate Date_parse (TaskFormData.endDate (formData m)))).
  assert (Hcases :
    (gt = true /\ ValidationError (snd (handleSubmit Date_parse env st m)))
    \/ (gt = false /\ ~ reportsFailure (snd (handleSubmit Date_parse env st m))
        /\ fst (fst (handleSubmit Date_parse env st m))
           = handleCloseModal (handleSaveTask env (formData m) (images m) st))).
  { destruct gt eqn:Hgt.
    - left. split; [reflexivity|].
      apply (handleSubmit_rejects_dates env st m Hn Ha Hgt).
    - right. split; [reflexivity|].
      destruct (handleSubmit_commits env st m Hn Ha Hgt) as (Hst & t & Ht & Hdt).
      split; [|exact Hst]. rewrite Ht.
      intros (t0 & [<-|[]] & Hd0). congruence. }
  assert (Hfail : forall ts, ValidationError ts -> reportsFailure ts).
  { intros ts (t & -> & Hd & _). exists t. split; [now left|exact Hd]. }
  split; [|split].
  - rewrite <- Date_gt_parsed. fold gt.
    destruct Hcases as [[Hgt Hv]|(Hgt & Hnf & _)]; rewrite Hgt.
    + tauto.
    + split; [|discriminate]. intros Hv. exfalso. apply Hnf, Hfail, Hv.
  - split; [|apply Hfail].
    destruct Hcases as [[_ Hv]|(_ & Hnf & _)]; [tauto|]. intros Hr. contradiction.
  - intros Hnone.
    assert (Hgt : gt = false).
    { destruct gt eqn:Hgt; [|reflexivity]. unfold gt in Hgt.
      apply Date_gt_parsed in Hgt. destruct Hgt as (a & b & Hs & He & _).
      destruct Hnone; congruence. }
    destruct Hcases as [[Hgt' _]|(_ & Hnf & Hst)]; [congruence|].
    split; [exact Hnf|]. split; [exact Hst|]. rewrite Hst. split.
    + intros He. unfold handleSaveTask. rewrite He.
      eexists. split; [reflexivity|]. split; reflexivity.
    + intros e k t He Hk Hid. unfold handleSaveTask. rewrite He.
      cbn [handleCloseModal setEditingTask setIsModalOpen setTasks tasks].
      rewrite (nth_error_map_byId
                 (fun task => mergeDraft task (formData m) (images m) (now env))
                 _ _ _ _ Hk).
      rewrite Hid, String.eqb_refl.
      eexists. split; [reflexivity|]. split; reflexivity.
Qed.

End HostProperties.

(** ** The form on the example host *)

Lemma C5_submit_rejects_invalid_witness :
  let m := Examples.modalOf (TaskFormData.mk "Design" "Sarah" "2024-02-01" "2024-01-01"
                      high (Some EmptyString)) in
  let r := handleSubmit ExampleHost.Date_parse Examples.env Examples.initialState m in
  fst (fst r) = Examples.initialState
  /\ tasks (fst (fst r)) = Examples.initialTasks
  /\ snd (fst r) = m
  /\ ValidationError (snd r).
Proof.
  cbv zeta.
  apply (C5_submit_rejects_invalid ExampleHost.Date_parse Examples.env
           Examples.initialState).
  right; right. exists 1706745600000, 1704067200000.
  split; [vm_compute; reflexivity|]. split; [vm_compute; reflexivity|]. lia.
Defined.

Lemma C10_submit_date_check_witness :
  let m := Examples.modalOf (TaskFormData.mk "Design" "Sarah" EmptyString "2024-01-25"
                      high (Some EmptyString)) in
  let r := handleSubmit ExampleHost.Date_parse Examples.env Examples.initialState m in
  ~ reportsFailure (snd r)
  /\ exists t, tasks (fst (fst r)) = Examples.initialTasks ++ [t]
               /\ Task.startDate t = EmptyString
               /\ Task.endDate t = "2024-01-25".
Proof.
  cbv zeta.
  destruct (C10_submit_date_check ExampleHost.Date_parse Examples.env
              Examples.initialState
              (Examples.modalOf (TaskFormData.mk "Design" "Sarah" EmptyString "2024-01-25"
                          high (Some EmptyString))))
    as (_ & _ & H).
  - vm_compute. discriminate.
  - vm_compute. discriminate.
  - destruct H as (Hnf & _ & Hcreate & _); [left; reflexivity|].
    split; [exact Hnf|]. apply Hcreate. reflexivity.
Defined.

(** ** The specification's scenarios, evaluated *)

(** Two high tasks at positions 0 and 1: [reorder high 0 1] swaps them. *)
Example scenario_reorder_two_high :
  reorder high 0 1 [Examples.task1; Examples.task4]
  = [Examples.task4; Examples.task1].
Proof. reflexivity. Qed.

(** Dragging sample task 2 (urgent) over the column [low] changes its
    priority at once and stamps it; dropping it there afterwards reorders
    nothing. *)
Example scenario_drag_over_column :
  let st := handleDragOver Examples.env (mkDragEvent "2" (Some "low"))
              Examples.initialState in
  tasks st
  = [Examples.task1;
     withPriority Examples.task2 low "2024-01-20T12:00:00.000Z";
     Examples.task3]
  /\ tasks (handleDragEnd (mkDragEvent "2" (Some "low")) st) = tasks st.
Proof. split; reflexivity. Qed.

(** The search is case-insensitive and looks at the name and the assignee;
    the date filter compares calendar days. *)
Example scenario_filter :
  filteredTasks ExampleHost.Date_parse ExampleHost.dayString
    (mkState Examples.fourTasks None false None medium "SARAH" "all" None)
  = [Examples.task1; Examples.task4]
  /\ filteredTasks ExampleHost.Date_parse ExampleHost.dayString
       (mkState Examples.fourTasks None false None medium "SARAH" "progress" None)
     = [Examples.task4]
  /\ filteredTasks ExampleHost.Date_parse ExampleHost.dayString
       (mkState Examples.fourTasks None false None medium EmptyString "all"
          (Some (ExampleHost.Date_parse "2024-01-12")))
     = [Examples.task2]
  /\ bucket (groupedTasks ExampleHost.Date_parse ExampleHost.dayString
               Examples.fourState) high
     = [Examples.task1; Examples.task4].
Proof. repeat split; vm_compute; reflexivity. Qed.

(** Submitting the draft of the specification's create scenario. *)
Example scenario_create :
  handleSubmit ExampleHost.Date_parse Examples.env
    (handleAddTask high Examples.initialState)
    (Examples.modalOf Examples.designDraft)
  = (setTasks
       (Examples.initialTasks
        ++ [Task.mk "4fzyo82mv" "Design" "Sarah" "2024-01-15" "2024-01-25"
              high todo [] (Some EmptyString)
              "2024-01-20T12:00:00.000Z" "2024-01-20T12:00:00.000Z"])
       (setDefaultPriority high Examples.initialState),
     Examples.modalOf Examples.designDraft,
     [mkToast "Task Created"
        (String.append "Task "
           (String.append (quoted "Design") " has been created successfully."))
        false]).
Proof. vm_compute. reflexivity. Qed.

(** ** Further properties of the handlers *)

(** *** Rewriting the tasks of one id *)

Lemma withPriority_keepsId p stamp : keepsId (fun t => withPriority t p stamp).
Proof. intros t. reflexivity. Qed.

Lemma withStatus_keepsId s stamp : keepsId (fun t => withStatus t s stamp).
Proof. intros t. reflexivity. Qed.

Lemma mergeDraft_keepsId d imgs stamp : keepsId (fun t => mergeDraft t d imgs stamp).
Proof. intros t. reflexivity. Qed.

Lemma ids_map_byId f i (l : list Task.t) :
  keepsId f ->
  ids (List.map (fun x => if String.eqb (Task.id x) i then f x else x) l) = ids l.
Proof.
  intros Hf. unfold ids. rewrite map_map. apply map_ext.
  intros t. destruct (String.eqb (Task.id t) i); [apply Hf|reflexivity].
Qed.

Lemma find_map_byId f i j (l : list Task.t) :
  keepsId f ->
  List.find (hasId j)
    (List.map (fun x => if String.eqb (Task.id x) i then f x else x) l)
  = option_map (fun x => if String.eqb (Task.id x) i then f x else x)
      (List.find (hasId j) l).
Proof.
  intros Hf. induction l as [|t r IH]; [reflexivity|].
  cbn [List.map List.find]. unfold hasId at 1 3.
  replace (Task.id (if String.eqb (Task.id t) i then f t else t))
    with (Task.id t) by (destruct (String.eqb (Task.id t) i); [now rewrite Hf|reflexivity]).
  destruct (String.eqb (Task.id t) j); [reflexivity|exact IH].
Qed.

Lemma map_byId_absent f i (l : list Task.t) :
  ~ In i (ids l) ->
  List.map (fun x => if String.eqb (Task.id x) i then f x else x) l = l.
Proof.
  intros H. rewrite <- (map_id l) at 2. apply map_ext_in.
  intros t Ht. destruct (String.eqb_spec (Task.id t) i) as [E|_]; [|reflexivity].
  exfalso. apply H. subst i. unfold ids. now apply in_map.
Qed.

Lemma Subseq_In {A} (s l : list A) x : Subseq s l -> In x s -> In x l.
Proof.
  induction 1 as [|y s l H IH|y s l H IH]; simpl; intuition.
Qed.

Lemma Subseq_map {A B} (f : A -> B) (s l : list A) :
  Subseq s l -> Subseq (List.map f s) (List.map f l).
Proof. induction 1; simpl; constructor; auto. Qed.

Lemma Subseq_NoDup {A} (s l : list A) : Subseq s l -> NoDup l -> NoDup s.
Proof.
  induction 1 as [|y s l H IH|y s l H IH]; intros Hnd.
  - constructor.
  - inversion Hnd; subst. constructor; [|auto].
    intros Hin. eauto using Subseq_In.
  - inversion Hnd; subst. auto.
Qed.

(** *** Delete *)

(** X1: after [handleDeleteTask] the id is gone.  What remains is exactly
    the tasks of other ids, in their order; the toast is never a failure
    and names the first task that had the id. *)
Theorem X1_delete_removes_id (taskId : string) (st : State) :
  ~ In taskId (ids (tasks (fst (handleDeleteTask taskId st))))
  /\ Subseq (tasks (fst (handleDeleteTask taskId st))) (tasks st)
  /\ (forall t, In t (tasks (fst (handleDeleteTask taskId st)))
                <-> In t (tasks st) /\ Task.id t <> taskId)
  /\ fst (handleDeleteTask taskId st)
     = setTasks (tasks (fst (handleDeleteTask taskId st))) st
  /\ ~ reportsFailure (snd (handleDeleteTask taskId st))
  /\ (forall t, List.find (hasId taskId) (tasks st) = Some t ->
        exists d, snd (handleDeleteTask taskId st) = [mkToast "Task Deleted" d false]
                  /\ Occurs (quoted (Task.name t)) d).
Proof.
  unfold handleDeleteTask. cbn [fst snd tasks setTasks].
  split; [|split; [|split; [|split; [|split]]]].
  - unfold ids. rewrite in_map_iff. intros (t & Hid & Hin).
    apply filter_In in Hin. destruct Hin as [_ Hneg].
    unfold hasId in Hneg. rewrite Hid, String.eqb_refl in Hneg. discriminate.
  - apply Subseq_filter.
  - intros t. rewrite filter_In. unfold hasId.
    rewrite negb_true_iff, String.eqb_neq. tauto.
  - reflexivity.
  - intros (t & [<-|[]] & Hd). discriminate Hd.
  - intros t Ht. rewrite Ht. eexists. split; [reflexivity|].
    exists "Task ", " has been deleted successfully.". reflexivity.
Qed.

(** With distinct ids, deleting a present id takes out one task. *)
Lemma filter_hasId_unique taskId (l : list Task.t) :
  NoDup (ids l) -> In taskId (ids l) ->
  exists l1 t l2,
    l = l1 ++ t :: l2 /\ Task.id t = taskId
    /\ List.filter (fun x => negb (hasId taskId x)) l = l1 ++ l2
    /\ List.find (hasId taskId) l = Some t.
Proof.
  induction l as [|x r IH]; [intros _ []|].
  cbn [ids List.map]. intros Hnd Hin. inversion Hnd as [|? ? Hx Hr]; subst.
  cbn [List.filter List.find].
  destruct (hasId taskId x) eqn:Hh; unfold hasId in Hh.
  - apply String.eqb_eq in Hh.
    exists [], x, r. cbn [negb app]. repeat split; auto.
    apply filter_hasId_absent. now rewrite <- Hh.
  - apply String.eqb_neq in Hh.
    destruct Hin as [Hin|Hin]; [contradiction|].
    destruct (IH Hr Hin) as (l1 & t & l2 & -> & Hid & Hf & Hfind).
    exists (x :: l1), t, l2. cbn [negb app]. rewrite Hf, Hfind. auto.
Qed.

(** X2: when the ids are distinct and the id is in the collection,
    [handleDeleteTask] removes the one task with that id, leaves the tasks
    before and after it as they were, and names that task in the toast. *)
Theorem X2_delete_present_unique (taskId : string) (st : State) :
  NoDup (ids (tasks st)) ->
  In taskId (ids (tasks st)) ->
  exists l1 t l2,
    tasks st = l1 ++ t :: l2
    /\ Task.id t = taskId
    /\ tasks (fst (handleDeleteTask taskId st)) = l1 ++ l2
    /\ S (List.length (tasks (fst (handleDeleteTask taskId st))))
       = List.length (tasks st)
    /\ snd (handleDeleteTask taskId st)
       = [mkToast "Task Deleted"
            (String.append "Task "
               (String.append (quoted (Task.name t))
                  " has been deleted successfully.")) false].
Proof.
  intros Hnd Hin.
  destruct (filter_hasId_unique taskId (tasks st) Hnd Hin)
    as (l1 & t & l2 & Hl & Hid & Hf & Hfind).
  exists l1, t, l2. unfold handleDeleteTask. cbn [fst snd tasks setTasks].
  rewrite Hf, Hfind. repeat split; auto.
  rewrite Hl, !length_app. simpl. lia.
Qed.

Lemma X2_delete_present_unique_witness :
  exists l1 t l2,
    tasks Examples.initialState = l1 ++ t :: l2
    /\ Task.id t = "2"
    /\ tasks (fst (handleDeleteTask "2" Examples.initialState)) = l1 ++ l2
    /\ S (List.length (tasks (fst (handleDeleteTask "2" Examples.initialState))))
       = List.length (tasks Examples.initialState)
    /\ snd (handleDeleteTask "2" Examples.initialState)
       = [mkToast "Task Deleted"
            (String.append "Task "
               (String.append (quoted (Task.name t))
                  " has been deleted successfully.")) false].
Proof.
  apply (X2_delete_present_unique "2" Examples.initialState).
  - simpl. repeat constructor; simpl; intuition discriminate.
  - simpl. auto.
Defined.

(** X3: deleting the same id again changes nothing more: the state after
    two deletes is the state after one. *)
Theorem X3_delete_twice (taskId : string) (st : State) :
  fst (handleDeleteTask taskId (fst (handleDeleteTask taskId st)))
  = fst (handleDeleteTask taskId st).
Proof.
  unfold handleDeleteTask. cbn [fst tasks setTasks].
  rewrite (filter_all (fun t => negb (hasId taskId t))
             (List.filter (fun t => negb (hasId taskId t)) (tasks st))).
  - reflexivity.
  - intros t Ht. now apply filter_In in Ht.
Qed.

(** *** More list facts *)

Section MoreListFacts.
Context {A : Type}.
Implicit Types (l : list A) (p q : A -> bool).

Lemma filter_filter_and p q l :
  List.filter q (List.filter p l) = List.filter (fun x => p x && q x) l.
Proof.
  induction l as [|x r IH]; [reflexivity|].
  cbn [List.filter]. destruct (p x); cbn [List.filter andb]; [|exact IH].
  destruct (q x); now rewrite IH.
Qed.

Lemma filter_filter_sub p q l :
  (forall x, q x = true -> p x = true) ->
  List.filter q (List.filter p l) = List.filter q l.
Proof.
  intros H. rewrite filter_filter_and. apply filter_ext.
  intros x. destruct (q x) eqn:E; [now rewrite (H x E)|apply andb_false_r].
Qed.


Lemma find_filter p q l a :
  List.find p l = Some a -> q a = true -> List.find p (List.filter q l) = Some a.
Proof.
  induction l as [|x r IH]; [discriminate|].
  cbn [List.find List.filter]. destruct (p x) eqn:Hp.
  - intros [= ->] Hq. rewrite Hq. cbn [List.find]. now rewrite Hp.
  - intros H Hq. destruct (q x); [cbn [List.find]; rewrite Hp|]; auto.
Qed.

(** [findIndex] points at the element [find] returns. *)
Lemma findIndex_find p l a :
  List.find p l = Some a ->
  0 <= Js.findIndex p l
  /\ nth_error l (Z.to_nat (Js.findIndex p l)) = Some a.
Proof.
  induction l as [|x r IH]; [discriminate|].
  cbn [List.find Js.findIndex]. destruct (p x).
  - intros [= ->]. split; [lia|reflexivity].
  - intros H. destruct (IH H) as [Hge Hnth].
    destruct (Z.ltb_spec (Js.findIndex p r) 0) as [?|_]; [lia|].
    split; [lia|].
    replace (Z.to_nat (Js.findIndex p r + 1))
      with (S (Z.to_nat (Js.findIndex p r))) by lia.
    exact Hnth.
Qed.

Lemma nth_error_removeAt i l k :
  nth_error (removeAt i l) k
  = if (k <? i)%nat then nth_error l k else nth_error l (S k).
Proof.
  unfold removeAt.
  destruct (Nat.ltb_spec k i) as [Hlt|Hge].
  - destruct (Nat.le_gt_cases (List.length l) k) as [Hout|Hin].
    + rewrite (proj2 (nth_error_None l k) Hout).
      apply nth_error_None. rewrite length_app, length_firstn, length_skipn. lia.
    + rewrite nth_error_app1 by (rewrite length_firstn; lia).
      rewrite nth_error_firstn.
      destruct (Nat.ltb_spec k i); [reflexivity|lia].
  - destruct (Nat.le_gt_cases (List.length l) i) as [Hout|Hin].
    + rewrite (proj2 (nth_error_None l (S k))) by lia.
      apply nth_error_None. rewrite length_app, length_firstn, length_skipn. lia.
    + rewrite nth_error_app2 by (rewrite length_firstn; lia).
      rewrite length_firstn, nth_error_skipn. f_equal. lia.
Qed.

Lemma nth_error_insertAt j x l k :
  (j <= List.length l)%nat ->
  nth_error (insertAt j x l) k
  = if (k <? j)%nat then nth_error l k
    else if (k =? j)%nat then Some x else nth_error l (k - 1).
Proof.
  intros Hj. unfold insertAt.
  destruct (Nat.ltb_spec k j) as [Hlt|Hge].
  - rewrite nth_error_app1 by (rewrite length_firstn; lia).
    rewrite nth_error_firstn.
    destruct (Nat.ltb_spec k j); [reflexivity|lia].
  - rewrite nth_error_app2 by (rewrite length_firstn; lia).
    rewrite length_firstn, Nat.min_l by lia.
    destruct (Nat.eqb_spec k j) as [->|Hne].
    + now rewrite Nat.sub_diag.
    + destruct (k - j)%nat as [|d] eqn:Ed; [lia|].
      cbn [nth_error]. rewrite nth_error_skipn. f_equal. lia.
Qed.

Lemma removeAt_insertAt j x l :
  (j <= List.length l)%nat -> removeAt j (insertAt j x l) = l.
Proof.
  intros Hj. unfold removeAt, insertAt.
  rewrite firstn_app, length_firstn, Nat.min_l by lia.
  rewrite Nat.sub_diag. cbn [firstn]. rewrite app_nil_r.
  rewrite firstn_firstn, Nat.min_id.
  rewrite skipn_app, length_firstn, Nat.min_l by lia.
  rewrite skipn_all2 by (rewrite length_firstn; lia).
  replace (S j - j)%nat with 1%nat by lia.
  cbn [skipn app]. apply firstn_skipn.
Qed.

Lemma insertAt_removeAt i x l :
  nth_error l i = Some x -> insertAt i x (removeAt i l) = l.
Proof.
  intros H.
  assert (Hlt : (i < List.length l)%nat) by (apply nth_error_Some; congruence).
  unfold insertAt, removeAt.
  rewrite firstn_app, length_firstn, Nat.min_l by lia.
  rewrite Nat.sub_diag. cbn [firstn]. rewrite app_nil_r.
  rewrite firstn_firstn, Nat.min_id.
  rewrite skipn_app, length_firstn, Nat.min_l by lia.
  rewrite skipn_all2 by (rewrite length_firstn; lia).
  rewrite Nat.sub_diag. cbn [skipn app].
  symmetry. now apply nth_error_split_at.
Qed.

Lemma insertAt_length j x l :
  List.length (insertAt j x l) = S (List.length l).
Proof.
  unfold insertAt. rewrite length_app. cbn [List.length].
  rewrite length_firstn, length_skipn. lia.
Qed.

End MoreListFacts.

(** *** Drag end, for every event *)

Lemma reorder_column P (i j : Z) (l : list Task.t) :
  0 <= i < Z.of_nat (List.length (List.filter (hasPriority P) l)) ->
  0 <= j < Z.of_nat (List.length (List.filter (hasPriority P) l)) ->
  i <> j ->
  exists x,
    nth_error (List.filter (hasPriority P) l) (Z.to_nat i) = Some x
    /\ List.filter (hasPriority P) (reorder P i j l)
       = insertAt (Z.to_nat j) x
           (removeAt (Z.to_nat i) (List.filter (hasPriority P) l)).
Proof.
  intros Hi Hj Hij.
  destruct (reorder_in_range P i j l Hi Hj Hij) as (x & Hx & ->).
  exists x. split; [exact Hx|].
  rewrite filter_app, filter_none, filter_all; [reflexivity| |].
  - intros y Hy. apply (filter_In_true (hasPriority P) l).
    apply (Permutation_in _ (removeAt_insertAt_perm _ _ _ _ Hx) Hy).
  - intros y Hy. apply filter_In_true in Hy. now apply negb_true_iff.
Qed.

(** A filter that selects no task of priority [P] sees no difference. *)
Lemma reorder_filter_other P (i j : Z) (l : list Task.t) (f : Task.t -> bool) :
  0 <= i < Z.of_nat (List.length (List.filter (hasPriority P) l)) ->
  0 <= j < Z.of_nat (List.length (List.filter (hasPriority P) l)) ->
  (forall t, f t = true -> hasPriority P t = false) ->
  List.filter f (reorder P i j l) = List.filter f l.
Proof.
  intros Hi Hj Hf.
  destruct (Z.eq_dec i j) as [->|Hij].
  { unfold reorder. now rewrite Z.eqb_refl. }
  destruct (reorder_in_range P i j l Hi Hj Hij) as (x & Hx & ->).
  rewrite filter_app, (filter_none f (insertAt _ _ _)), app_nil_r.
  - apply filter_filter_sub. intros t Ht. now rewrite (Hf t Ht).
  - intros y Hy.
    assert (Hp : hasPriority P y = true).
    { apply (filter_In_true (hasPriority P) l).
      apply (Permutation_in _ (removeAt_insertAt_perm _ _ _ _ Hx) Hy). }
    destruct (f y) eqn:E; [|reflexivity]. rewrite (Hf y E) in Hp. discriminate.
Qed.

Lemma reorder_perm P (i j : Z) (l : list Task.t) :
  0 <= i < Z.of_nat (List.length (List.filter (hasPriority P) l)) ->
  0 <= j < Z.of_nat (List.length (List.filter (hasPriority P) l)) ->
  Permutation (reorder P i j l) l.
Proof.
  intros Hi Hj.
  destruct (Z.eq_dec i j) as [->|Hij].
  { unfold reorder. now rewrite Z.eqb_refl. }
  destruct (reorder_in_range P i j l Hi Hj Hij) as (x & Hx & ->).
  transitivity (List.filter (fun t => negb (hasPriority P t)) l
                ++ List.filter (hasPriority P) l).
  - apply Permutation_app_head. now apply removeAt_insertAt_perm.
  - apply filter_split_perm.
Qed.

(** Dropping on another task of the same priority reorders. *)
Lemma handleDragEnd_reorders (event : DragEvent) (st : State) overId a o :
  over event = Some overId ->
  List.find (hasId (active event)) (tasks st) = Some a ->
  List.find (hasId overId) (tasks st) = Some o ->
  Task.priority a = Task.priority o ->
  active event <> overId ->
  tasks (handleDragEnd event st)
  = reorder (Task.priority a)
      (Js.findIndex (hasId (active event))
         (List.filter (hasPriority (Task.priority a)) (tasks st)))
      (Js.findIndex (hasId overId)
         (List.filter (hasPriority (Task.priority a)) (tasks st)))
      (tasks st).
Proof.
  intros Hover Ha Ho Hp Hne.
  destruct (handleDragEnd_indices _ _ _ _ _ Ha Ho Hp) as (_ & _ & Hij).
  unfold handleDragEnd, reorder. rewrite Hover, Ha, Ho.
  rewrite (proj2 (Priority_eqb_eq _ _) Hp).
  destruct (Z.eqb_spec
              (Js.findIndex (hasId (active event))
                 (List.filter (hasPriority (Task.priority a)) (tasks st)))
              (Js.findIndex (hasId overId)
                 (List.filter (hasPriority (Task.priority a)) (tasks st))))
    as [E|_]; [|reflexivity].
  exfalso. apply Hne, Hij, E.
Qed.

(** The two outcomes of [handleDragEnd] for the collection. *)
Lemma handleDragEnd_cases (event : DragEvent) (st : State) :
  tasks (handleDragEnd event st) = tasks st
  \/ exists overId a o,
       over event = Some overId
       /\ List.find (hasId (active event)) (tasks st) = Some a
       /\ List.find (hasId overId) (tasks st) = Some o
       /\ Task.priority a = Task.priority o
       /\ active event <> overId.
Proof.
  unfold handleDragEnd.
  destruct (over event) as [overId|] eqn:Hover; [|now left].
  destruct (List.find (hasId (active event)) (tasks st)) as [a|] eqn:Ha;
    [|now left].
  destruct (List.find (hasId overId) (tasks st)) as [o|] eqn:Ho; [|now left].
  destruct (Priority_eqb (Task.priority a) (Task.priority o)) eqn:Hp; [|now left].
  apply Priority_eqb_eq in Hp.
  destruct (handleDragEnd_indices _ _ _ _ _ Ha Ho Hp) as (_ & _ & Hij).
  match goal with |- context [negb (?i =? ?j)] =>
    destruct (Z.eqb_spec i j) as [E|E] end; [now left|].
  right. exists overId, a, o. repeat split; auto.
  intros Eid. apply E, Hij, Eid.
Qed.

(** X4: whatever the event, [handleDragEnd] only rearranges: the collection
    afterwards is a permutation of the collection before, and a column
    other than the dragged task's holds the same tasks in the same
    order. *)
Theorem X4_dragEnd_rearranges (event : DragEvent) (st : State) :
  Permutation (tasks (handleDragEnd event st)) (tasks st)
  /\ forall q,
       (forall a, List.find (hasId (active event)) (tasks st) = Some a ->
                  Task.priority a <> q) ->
       List.filter (hasPriority q) (tasks (handleDragEnd event st))
       = List.filter (hasPriority q) (tasks st).
Proof.
  destruct (handleDragEnd_cases event st)
    as [E|(overId & a & o & Hover & Ha & Ho & Hp & Hne)].
  - rewrite E. split; [reflexivity|]. intros; reflexivity.
  - rewrite (handleDragEnd_reorders _ _ _ _ _ Hover Ha Ho Hp Hne).
    destruct (handleDragEnd_indices _ _ _ _ _ Ha Ho Hp) as (Hi & Hj & _).
    split; [now apply reorder_perm|].
    intros q Hq. apply reorder_filter_other; auto.
    intros t Ht. unfold hasPriority in *.
    apply Priority_eqb_eq in Ht. apply Priority_eqb_neq.
    rewrite Ht. intros Eq. now apply (Hq a Ha).
Qed.

Lemma X4_dragEnd_rearranges_witness :
  Permutation
    (tasks (handleDragEnd (mkDragEvent "1" (Some "4")) Examples.fourState))
    (tasks Examples.fourState)
  /\ List.filter (hasPriority low)
       (tasks (handleDragEnd (mkDragEvent "1" (Some "4")) Examples.fourState))
     = List.filter (hasPriority low) (tasks Examples.fourState).
Proof.
  destruct (X4_dragEnd_rearranges (mkDragEvent "1" (Some "4")) Examples.fourState)
    as [Hperm Hcol].
  split; [exact Hperm|]. apply Hcol.
  intros a [= <-]. discriminate.
Defined.

(** X5: when a task is dropped on another task of its column, it takes the
    position the target had in the column, and the target moves by one
    towards the position the dragged task left; the column keeps its
    length. *)
Theorem X5_dragEnd_drop_position (event : DragEvent) (st : State) overId a o :
  over event = Some overId ->
  List.find (hasId (active event)) (tasks st) = Some a ->
  List.find (hasId overId) (tasks st) = Some o ->
  Task.priority a = Task.priority o ->
  active event <> overId ->
  let column := List.filter (hasPriority (Task.priority a)) (tasks st) in
  let column' :=
    List.filter (hasPriority (Task.priority a)) (tasks (handleDragEnd event st)) in
  let i := Z.to_nat (Js.findIndex (hasId (active event)) column) in
  let j := Z.to_nat (Js.findIndex (hasId overId) column) in
  nth_error column i = Some a
  /\ nth_error column j = Some o
  /\ nth_error column' j = Some a
  /\ nth_error column' (if (i <? j)%nat then j - 1 else j + 1)%nat = Some o
  /\ List.length column' = List.length column.
Proof.
  intros Hover Ha Ho Hp Hne column column' i j.
  destruct (handleDragEnd_indices _ _ _ _ _ Ha Ho Hp) as (Hi & Hj & Hij).
  fold column in Hi, Hj, Hij.
  assert (Hasub : List.find (hasId (active event)) column = Some a).
  { apply find_filter; [exact Ha|apply Priority_eqb_refl]. }
  assert (Hosub : List.find (hasId overId) column = Some o).
  { apply find_filter; [exact Ho|].
    unfold hasPriority. rewrite Hp. apply Priority_eqb_refl. }
  destruct (findIndex_find _ _ _ Hasub) as [_ Hia].
  destruct (findIndex_find _ _ _ Hosub) as [_ Hjo].
  fold i in Hia. fold j in Hjo.
  assert (Hneq : Js.findIndex (hasId (active event)) column
                 <> Js.findIndex (hasId overId) column)
    by (intros E; apply Hne, Hij, E).
  assert (Hnat : i <> j) by (unfold i, j; lia).
  pose proof (handleDragEnd_reorders _ _ _ _ _ Hover Ha Ho Hp Hne) as E.
  fold column in E.
  destruct (reorder_column (Task.priority a) _ _ (tasks st) Hi Hj Hneq)
    as (x & Hx & Hcol).
  fold column in Hx, Hcol. fold i in Hx. fold j in Hcol. fold i in Hcol.
  rewrite Hia in Hx. injection Hx as <-.
  unfold column'. rewrite E, Hcol.
  pose proof (removeAt_length _ _ _ Hia) as Hl.
  assert (Hjlt : (j < List.length column)%nat) by (unfold j; lia).
  split; [exact Hia|]. split; [exact Hjo|]. split; [|split].
  - rewrite nth_error_insertAt by lia.
    destruct (Nat.ltb_spec j j); [lia|]. now rewrite Nat.eqb_refl.
  - rewrite nth_error_insertAt by lia.
    destruct (Nat.ltb_spec i j) as [Hlt|Hge].
    + destruct (Nat.ltb_spec (j - 1) j); [|lia].
      rewrite nth_error_removeAt.
      destruct (Nat.ltb_spec (j - 1) i); [lia|].
      replace (S (j - 1)) with j by lia. exact Hjo.
    + destruct (Nat.ltb_spec (j + 1) j); [lia|].
      destruct (Nat.eqb_spec (j + 1) j); [lia|].
      rewrite nth_error_removeAt.
      replace (j + 1 - 1)%nat with j by lia.
      destruct (Nat.ltb_spec j i); [exact Hjo|lia].
  - rewrite insertAt_length. lia.
Qed.

Lemma X5_dragEnd_drop_position_witness :
  let column' :=
    List.filter (hasPriority high)
      (tasks (handleDragEnd (mkDragEvent "1" (Some "4")) Examples.fourState)) in
  nth_error column' 1 = Some Examples.task1
  /\ nth_error column' 0 = Some Examples.task4
  /\ List.length column' = 2%nat.
Proof.
  cbv zeta.
  destruct (X5_dragEnd_drop_position (mkDragEvent "1" (Some "4"))
              Examples.fourState "4" Examples.task1 Examples.task4
              eq_refl eq_refl eq_refl eq_refl)
    as (_ & _ & Ha & Ho & Hlen).
  - discriminate.
  - split; [exact Ha|]. split; [exact Ho|exact Hlen].
Defined.

(** X6: a reorder is undone by the opposite reorder.  After moving a task of
    priority [P] from position [i] to position [j] of its column and then
    from [j] back to [i], the column is in its original order; the
    collection is then the other tasks followed by that column. *)
Theorem X6_reorder_undo P (i j : Z) (l : list Task.t) :
  0 <= i < Z.of_nat (List.length (List.filter (hasPriority P) l)) ->
  0 <= j < Z.of_nat (List.length (List.filter (hasPriority P) l)) ->
  i <> j ->
  List.filter (hasPriority P) (reorder P j i (reorder P i j l))
  = List.filter (hasPriority P) l
  /\ reorder P j i (reorder P i j l)
     = List.filter (fun t => negb (hasPriority P t)) l
       ++ List.filter (hasPriority P) l.
Proof.
  intros Hi Hj Hij.
  destruct (reorder_column P i j l Hi Hj Hij) as (x & Hx & Hcol).
  pose proof (removeAt_length _ _ _ Hx) as Hl.
  assert (Hlen : List.length (List.filter (hasPriority P) (reorder P i j l))
                 = List.length (List.filter (hasPriority P) l)).
  { rewrite Hcol, insertAt_length. exact Hl. }
  assert (Hi' : 0 <= i < Z.of_nat
            (List.length (List.filter (hasPriority P) (reorder P i j l))))
    by (rewrite Hlen; exact Hi).
  assert (Hj' : 0 <= j < Z.of_nat
            (List.length (List.filter (hasPriority P) (reorder P i j l))))
    by (rewrite Hlen; exact Hj).
  assert (Hji : j <> i) by congruence.
  destruct (reorder_in_range P j i (reorder P i j l) Hj' Hi' Hji)
    as (y & Hy & Hr).
  rewrite Hcol in Hy.
  rewrite nth_error_insertAt in Hy by lia.
  destruct (Nat.ltb_spec (Z.to_nat j) (Z.to_nat j)); [lia|].
  rewrite Nat.eqb_refl in Hy. injection Hy as <-.
  assert (Hback : insertAt (Z.to_nat i) x
                    (removeAt (Z.to_nat j)
                       (List.filter (hasPriority P) (reorder P i j l)))
                  = List.filter (hasPriority P) l).
  { rewrite Hcol, removeAt_insertAt by lia. now apply insertAt_removeAt. }
  assert (Hothers : List.filter (fun t => negb (hasPriority P t)) (reorder P i j l)
                    = List.filter (fun t => negb (hasPriority P t)) l).
  { apply reorder_filter_other; auto.
    intros t Ht. now apply negb_true_iff. }
  rewrite Hr, Hback, Hothers. split; [|reflexivity].
  rewrite filter_app, filter_none, filter_all; [reflexivity| |].
  - intros t Ht. now apply filter_In_true in Ht.
  - intros t Ht. apply filter_In_true in Ht. now apply negb_true_iff.
Qed.

Lemma X6_reorder_undo_witness :
  List.filter (hasPriority high)
    (reorder high 1 0 (reorder high 0 1 Examples.fourTasks))
  = List.filter (hasPriority high) Examples.fourTasks
  /\ reorder high 1 0 (reorder high 0 1 Examples.fourTasks)
     = List.filter (fun t => negb (hasPriority high t)) Examples.fourTasks
       ++ List.filter (hasPriority high) Examples.fourTasks.
Proof.
  apply (X6_reorder_undo high 0 1 Examples.fourTasks); simpl; lia.
Defined.

(** *** Drag over *)

Lemma handleDragOver_ids (env : Env) (event : DragEvent) (st : State) :
  ids (tasks (handleDragOver env event st)) = ids (tasks st).
Proof.
  unfold handleDragOver.
  destruct (over event) as [overId|]; [|reflexivity].
  destruct (List.find _ _) as [a|]; [|reflexivity].
  destruct (Priority_of_tag overId) as [p|]; [|reflexivity].
  destruct (negb _); [|reflexivity].
  cbn [tasks setTasks].
  apply (ids_map_byId (fun t => withPriority t p (now env))).
  apply withPriority_keepsId.
Qed.

(** X7: a second drag-over event for the same target changes nothing: the
    priority is already the target's, and updatedAt is not stamped again. *)
Theorem X7_dragOver_repeated (env1 env2 : Env) (event : DragEvent) (st : State) :
  handleDragOver env2 event (handleDragOver env1 event st)
  = handleDragOver env1 event st.
Proof.
  unfold handleDragOver at 2 3.
  destruct (over event) as [overId|] eqn:Hover;
    [|unfold handleDragOver; now rewrite Hover].
  destruct (List.find (hasId (active event)) (tasks st)) as [a|] eqn:Ha;
    [|unfold handleDragOver; now rewrite Hover, Ha].
  destruct (Priority_of_tag overId) as [p|] eqn:Hp;
    [|unfold handleDragOver; now rewrite Hover, Ha, Hp].
  destruct (Priority_eqb (Task.priority a) p) eqn:Heq; cbn [negb].
  - unfold handleDragOver. now rewrite Hover, Ha, Hp, Heq.
  - unfold handleDragOver. rewrite Hover. cbn [tasks setTasks].
    rewrite (find_map_byId (fun t => withPriority t p (now env1)))
      by apply withPriority_keepsId.
    rewrite Ha. cbn [option_map].
    apply find_some in Ha. destruct Ha as [_ Hid]. unfold hasId in Hid.
    rewrite Hid, Hp. cbn [withPriority Task.priority].
    now rewrite Priority_eqb_refl.
Qed.

(** X8: a whole drag onto a column.  When no task's id is the column's tag,
    [handleDragStart], [handleDragOver] and [handleDragEnd] for that column
    leave what [handleDragOver] alone does to the collection, and the
    active-task marker cleared. *)
Theorem X8_drag_onto_column (env : Env) (event : DragEvent) (st : State) p :
  over event = Some (Priority_tag p) ->
  ~ In (Priority_tag p) (ids (tasks st)) ->
  handleDragEnd event (handleDragOver env event (handleDragStart event st))
  = setActiveTask None (handleDragOver env event st)
  /\ ids (tasks (handleDragEnd event
                   (handleDragOver env event (handleDragStart event st))))
     = ids (tasks st)
  /\ (forall a, List.find (hasId (active event)) (tasks st) = Some a ->
        In (if Priority_eqb (Task.priority a) p then a
            else withPriority a p (now env))
           (tasks (handleDragEnd event
                     (handleDragOver env event (handleDragStart event st))))).
Proof.
  intros Hover Habs.
  assert (Hstart : handleDragOver env event (handleDragStart event st)
                   = setActiveTask (List.find (hasId (active event)) (tasks st))
                       (handleDragOver env event st)).
  { unfold handleDragStart, handleDragOver. rewrite Hover.
    cbn [tasks setActiveTask].
    destruct (List.find _ _) as [a|]; [|reflexivity].
    destruct (Priority_of_tag _) as [q|]; [|reflexivity].
    destruct (negb _); reflexivity. }
  assert (Hend : handleDragEnd event (handleDragOver env event (handleDragStart event st))
                 = setActiveTask None (handleDragOver env event st)).
  { rewrite Hstart. unfold handleDragEnd. rewrite Hover.
    cbn [tasks setActiveTask].
    assert (Hnone : List.find (hasId (Priority_tag p))
                      (tasks (handleDragOver env event st)) = None).
    { apply find_hasId_absent. now rewrite handleDragOver_ids. }
    rewrite Hnone.
    destruct (List.find (hasId (active event))
                (tasks (handleDragOver env event st))); reflexivity. }
  split; [exact Hend|]. rewrite Hend. cbn [tasks setActiveTask].
  split; [apply handleDragOver_ids|].
  intros a Ha. unfold handleDragOver.
  rewrite Hover, Ha, Priority_of_tag_tag.
  pose proof (find_some _ _ Ha) as [Hin Hid]. unfold hasId in Hid.
  destruct (Priority_eqb (Task.priority a) p); cbn [negb]; [exact Hin|].
  cbn [tasks setTasks]. apply in_map_iff. exists a. now rewrite Hid.
Qed.

Lemma X8_drag_onto_column_witness :
  let ev := mkDragEvent "1" (Some "urgent") in
  let st' := handleDragEnd ev
               (handleDragOver Examples.env ev
                  (handleDragStart ev Examples.initialState)) in
  st' = setActiveTask None (handleDragOver Examples.env ev Examples.initialState)
  /\ ids (tasks st') = ["1"; "2"; "3"]
  /\ In (withPriority Examples.task1 urgent (now Examples.env)) (tasks st').
Proof.
  cbv zeta.
  destruct (X8_drag_onto_column Examples.env (mkDragEvent "1" (Some "urgent"))
              Examples.initialState urgent eq_refl)
    as (H1 & H2 & H3).
  - simpl. intuition discriminate.
  - split; [exact H1|]. split; [exact H2|]. apply (H3 Examples.task1 eq_refl).
Defined.

(** *** Status update *)

Lemma handleStatusUpdate_ids env taskId newStatus st :
  ids (tasks (fst (handleStatusUpdate env taskId newStatus st))) = ids (tasks st).
Proof.
  unfold handleStatusUpdate. cbn [fst tasks setTasks].
  apply (ids_map_byId (fun t => withStatus t newStatus (now env))).
  apply withStatus_keepsId.
Qed.

(** X9: [handleStatusUpdate] for an id that is not in the collection leaves
    the state as it was and still raises the "Status Updated" toast, naming
    the task "undefined". *)
Theorem X9_statusUpdate_absent env taskId newStatus st :
  ~ In taskId (ids (tasks st)) ->
  fst (handleStatusUpdate env taskId newStatus st) = st
  /\ snd (handleStatusUpdate env taskId newStatus st)
     = [mkToast "Status Updated"
          (String.append "Task "
             (String.append (quoted "undefined")
                (String.append " moved to "
                   (String.append (Status_tag newStatus) "."))))
          false]
  /\ ~ reportsFailure (snd (handleStatusUpdate env taskId newStatus st)).
Proof.
  intros H. unfold handleStatusUpdate. cbn [fst snd].
  rewrite (map_byId_absent _ _ _ H), (find_hasId_absent _ _ H), setTasks_same.
  split; [reflexivity|]. split; [reflexivity|].
  intros (t & [<-|[]] & Hd). discriminate Hd.
Qed.

Lemma X9_statusUpdate_absent_witness :
  fst (handleStatusUpdate Examples.env "9" completed Examples.initialState)
  = Examples.initialState
  /\ snd (handleStatusUpdate Examples.env "9" completed Examples.initialState)
     = [mkToast "Status Updated"
          (String.append "Task "
             (String.append (quoted "undefined")
                (String.append " moved to "
                   (String.append (Status_tag completed) "."))))
          false]
  /\ ~ reportsFailure
         (snd (handleStatusUpdate Examples.env "9" completed Examples.initialState)).
Proof.
  apply (X9_statusUpdate_absent Examples.env "9" completed Examples.initialState).
  simpl. intuition discriminate.
Defined.


(** *** The ids of the collection *)

(** X11: distinct ids stay distinct under every handler that does not
    create a task: drag over, drag end, delete, status update and the save
    of an edit. *)
Theorem X11_unique_ids_kept env (event : DragEvent) taskId newStatus
    (taskData : TaskFormData.t) (imgs : list string) (st : State) :
  NoDup (ids (tasks st)) ->
  NoDup (ids (tasks (handleDragOver env event st)))
  /\ NoDup (ids (tasks (handleDragEnd event st)))
  /\ NoDup (ids (tasks (fst (handleDeleteTask taskId st))))
  /\ NoDup (ids (tasks (fst (handleStatusUpdate env taskId newStatus st))))
  /\ (editingTask st <> None ->
      NoDup (ids (tasks (handleSaveTask env taskData imgs st)))).
Proof.
  intros Hnd. split; [|split; [|split; [|split]]].
  - now rewrite handleDragOver_ids.
  - destruct (handleDragEnd_cases event st)
      as [E|(overId & a & o & Hover & Ha & Ho & Hp & Hne)].
    + now rewrite E.
    + rewrite (handleDragEnd_reorders _ _ _ _ _ Hover Ha Ho Hp Hne).
      destruct (handleDragEnd_indices _ _ _ _ _ Ha Ho Hp) as (Hi & Hj & _).
      apply (Permutation_NoDup (l := ids (tasks st))); [|exact Hnd].
      unfold ids. apply Permutation_map. symmetry. now apply reorder_perm.
  - apply (Subseq_NoDup _ (ids (tasks st))); [|exact Hnd].
    unfold ids, handleDeleteTask. cbn [fst tasks setTasks].
    apply Subseq_map, Subseq_filter.
  - now rewrite handleStatusUpdate_ids.
  - intros He. unfold handleSaveTask.
    destruct (editingTask st) as [e|]; [|contradiction].
    cbn [tasks setTasks].
    rewrite (ids_map_byId (fun t => mergeDraft t taskData imgs (now env)));
      [exact Hnd|apply mergeDraft_keepsId].
Qed.

Lemma X11_unique_ids_kept_witness :
  NoDup (ids (tasks (handleDragOver Examples.env (mkDragEvent "1" (Some "low"))
                       Examples.fourState)))
  /\ NoDup (ids (tasks (handleDragEnd (mkDragEvent "1" (Some "4"))
                          Examples.fourState)))
  /\ NoDup (ids (tasks (fst (handleDeleteTask "2" Examples.fourState))))
  /\ NoDup (ids (tasks (fst (handleStatusUpdate Examples.env "3" progress
                               Examples.fourState)))).
Proof.
  destruct (X11_unique_ids_kept Examples.env (mkDragEvent "1" (Some "low"))
              "2" progress Examples.designDraft [] Examples.fourState)
    as (H1 & _ & H3 & _).
  { simpl. repeat constructor; simpl; intuition discriminate. }
  destruct (X11_unique_ids_kept Examples.env (mkDragEvent "1" (Some "4"))
              "3" progress Examples.designDraft [] Examples.fourState)
    as (_ & H2 & _ & H4 & _).
  { simpl. repeat constructor; simpl; intuition discriminate. }
  split; [exact H1|]. split; [exact H2|]. split; [exact H3|exact H4].
Defined.

(** *** Create, then delete *)

Lemma find_app_None {A} (p : A -> bool) (l l' : list A) :
  List.find p l = None -> List.find p (l ++ l') = List.find p l'.
Proof.
  induction l as [|x r IH]; [reflexivity|].
  cbn [List.find app]. destruct (p x); [discriminate|exact IH].
Qed.

(** X12: a task created with an id that was not in use is removed again by
    deleting that id: the state is the one before the creation, and the
    toast names the draft's name. *)
Theorem X12_create_then_delete env (taskData : TaskFormData.t)
    (imgs : list string) (st : State) :
  editingTask st = None ->
  ~ In (generateId env) (ids (tasks st)) ->
  handleDeleteTask (generateId env) (handleSaveTask env taskData imgs st)
  = (st, [mkToast "Task Deleted"
            (String.append "Task "
               (String.append (quoted (TaskFormData.name taskData))
                  " has been deleted successfully.")) false]).
Proof.
  intros He Hfresh. unfold handleSaveTask, handleDeleteTask. rewrite He.
  cbn [tasks setTasks].
  rewrite filter_app, (find_app_None _ _ _ (find_hasId_absent _ _ Hfresh)),
    (filter_hasId_absent _ _ Hfresh).
  cbn [List.filter List.find]. unfold hasId at 1 2.
  cbn [newTaskOf Task.id]. rewrite String.eqb_refl. cbn [negb].
  rewrite app_nil_r. cbn [nameInTemplate Task.name].
  f_equal. now destruct st.
Qed.

Lemma X12_create_then_delete_witness :
  handleDeleteTask (generateId Examples.env)
    (handleSaveTask Examples.env Examples.designDraft [] Examples.initialState)
  = (Examples.initialState,
     [mkToast "Task Deleted"
        (String.append "Task "
           (String.append (quoted "Design") " has been deleted successfully."))
        false]).
Proof.
  apply (X12_create_then_delete Examples.env Examples.designDraft []
           Examples.initialState eq_refl).
  simpl. intuition discriminate.
Defined.

(** *** The form's images *)

Lemma removeAt_cons {A} (x : A) (r : list A) k :
  removeAt (S k) (x :: r) = x :: removeAt k r.
Proof. reflexivity. Qed.

(** Filtering out one index removes the element at that index, if any. *)
Lemma filterFrom_remove {A} (l : list A) (start index : Z) :
  Js.filterFrom (fun _ i => negb (i =? index)) start l
  = if (start <=? index) && (index <? start + Z.of_nat (List.length l))
    then removeAt (Z.to_nat (index - start)) l
    else l.
Proof.
  revert start. induction l as [|x r IH]; intros start.
  - cbn [Js.filterFrom].
    destruct (_ && _); [unfold removeAt; now rewrite firstn_nil, skipn_nil|reflexivity].
  - cbn [Js.filterFrom]. rewrite IH. cbn [List.length].
    destruct (Z.eqb_spec start index) as [->|Hne]; cbn [negb].
    + destruct (Z.leb_spec (index + 1) index); [lia|]. cbn [andb].
      destruct (Z.leb_spec index index); [|lia].
      destruct (Z.ltb_spec index (index + Z.of_nat (S (List.length r)))); [|lia].
      cbn [andb]. now rewrite Z.sub_diag.
    + destruct (Z.leb_spec (start + 1) index) as [H1|H1].
      * destruct (Z.leb_spec start index); [|lia]. cbn [andb].
        destruct (Z.ltb_spec index (start + 1 + Z.of_nat (List.length r))),
                 (Z.ltb_spec index (start + Z.of_nat (S (List.length r))));
          try lia; [|reflexivity].
        replace (Z.to_nat (index - start))
          with (S (Z.to_nat (index - (start + 1)))) by lia.
        now rewrite removeAt_cons.
      * destruct (Z.leb_spec start index); [lia|]. reflexivity.
Qed.

(** X13: [removeImage] with the index of an image removes that image: the
    images before it stay at their positions, those after it move up by
    one, and the form's fields are untouched.  With an index that is not a
    position of the list, nothing changes. *)
Theorem X13_removeImage (index : Z) (m : ModalState) :
  (0 <= index < Z.of_nat (List.length (images m)) ->
   S (List.length (images (removeImage index m))) = List.length (images m)
   /\ (forall k,
         nth_error (images (removeImage index m)) k
         = if (k <? Z.to_nat index)%nat then nth_error (images m) k
           else nth_error (images m) (S k))
   /\ formData (removeImage index m) = formData m
   /\ isSubmitting (removeImage index m) = isSubmitting m)
  /\ (index < 0 \/ Z.of_nat (List.length (images m)) <= index ->
      removeImage index m = m).
Proof.
  unfold removeImage, Js.filterIndexed. rewrite filterFrom_remove.
  cbn [Z.add]. rewrite Z.sub_0_r. split.
  - intros H.
    destruct (Z.leb_spec 0 index); [|lia].
    destruct (Z.ltb_spec index (Z.of_nat (List.length (images m)))); [|lia].
    cbn [andb images formData isSubmitting setImages].
    split; [|split; [|split; reflexivity]].
    + destruct (nth_error (images m) (Z.to_nat index)) as [x|] eqn:Hx.
      * now apply (removeAt_length _ _ x).
      * apply nth_error_None in Hx. lia.
    + intros k. apply nth_error_removeAt.
  - intros H.
    destruct (Z.leb_spec 0 index), (Z.ltb_spec index (Z.of_nat (List.length (images m))));
      cbn [andb]; try lia; now destruct m.
Qed.

Lemma X13_removeImage_witness :
  let m := mkModalState Examples.designDraft ["a"; "b"; "c"] false in
  images (removeImage 1 m) = ["a"; "c"]
  /\ removeImage 3 m = m
  /\ removeImage (-1) m = m.
Proof.
  cbv zeta.
  pose (m := mkModalState Examples.designDraft ["a"; "b"; "c"] false).
  destruct (X13_removeImage 1 m) as [Hin _].
  destruct Hin as (_ & Hnth & _); [simpl; lia|].
  split.
  - apply nth_error_ext. intros k. rewrite Hnth.
    destruct k as [|[|[|k]]]; reflexivity.
  - split.
    + apply (proj2 (X13_removeImage 3 m)). right. simpl. lia.
    + apply (proj2 (X13_removeImage (-1) m)). left. lia.
Defined.

(** The results that [onImageLoad] keeps. *)
Lemma onImageLoad_images (result : option string) (m : ModalState) :
  images (onImageLoad result m)
  = images m ++ match result with
                | Some r => if Js.truthy r then [r] else []
                | None => []
                end.
Proof.
  unfold onImageLoad. destruct result as [r|]; [|now rewrite app_nil_r].
  destruct (Js.truthy r); [reflexivity|now rewrite app_nil_r].
Qed.

(** X14: after the reads of several files have completed, the images are
    the former images followed by the non-empty results, in the order of
    completion; missing and empty results leave no trace, and the form's
    fields are untouched. *)
Theorem X14_image_loads (results : list (option string)) (m : ModalState) :
  images (List.fold_left (fun m r => onImageLoad r m) results m)
  = images m
    ++ List.flat_map (fun r => match r with
                               | Some s => if Js.truthy s then [s] else []
                               | None => []
                               end) results
  /\ formData (List.fold_left (fun m r => onImageLoad r m) results m) = formData m.
Proof.
  revert m. induction results as [|r rs IH]; intros m.
  - cbn [List.fold_left List.flat_map]. now rewrite app_nil_r.
  - cbn [List.fold_left List.flat_map].
    destruct (IH (onImageLoad r m)) as [Himg Hform].
    rewrite Himg, Hform, onImageLoad_images, <- app_assoc.
    split; [reflexivity|].
    unfold onImageLoad. destruct r as [s|]; [|reflexivity].
    now destruct (Js.truthy s).
Qed.

(** X15: removing the image that was just appended restores the form: a
    non-empty result is appended last, and [removeImage] at that last index
    gives back the state before the load. *)
Theorem X15_load_then_remove (r : string) (m : ModalState) :
  r <> EmptyString ->
  images (onImageLoad (Some r) m) = images m ++ [r]
  /\ removeImage (Z.of_nat (List.length (images m))) (onImageLoad (Some r) m) = m.
Proof.
  intros Hr.
  assert (Ht : Js.truthy r = true) by (destruct r; [contradiction|reflexivity]).
  unfold onImageLoad. rewrite Ht. cbn [images setImages].
  split; [reflexivity|].
  unfold removeImage, Js.filterIndexed. rewrite filterFrom_remove.
  cbn [images setImages formData isSubmitting Z.add].
  rewrite length_app. cbn [List.length].
  destruct (Z.leb_spec 0 (Z.of_nat (List.length (images m)))); [|lia].
  destruct (Z.ltb_spec (Z.of_nat (List.length (images m)))
              (Z.of_nat (List.length (images m) + 1))); [|lia].
  cbn [andb]. rewrite Z.sub_0_r, Nat2Z.id.
  unfold removeAt. rewrite firstn_app, Nat.sub_diag, firstn_all. cbn [firstn].
  rewrite skipn_all2 by (rewrite length_app; simpl; lia).
  rewrite !app_nil_r. now destruct m.
Qed.

Lemma X15_load_then_remove_witness :
  let m := mkModalState Examples.designDraft ["a"] false in
  images (onImageLoad (Some "data:image/png;base64,AAAA") m)
  = images m ++ ["data:image/png;base64,AAAA"]
  /\ removeImage (Z.of_nat (List.length (images m)))
       (onImageLoad (Some "data:image/png;base64,AAAA") m) = m.
Proof.
  cbv zeta.
  apply (X15_load_then_remove "data:image/png;base64,AAAA"
           (mkModalState Examples.designDraft ["a"] false)).
  discriminate.
Defined.

(** *** Generated ids *)

Lemma substring_length (n m : nat) (s : string) :
  String.length (String.substring n m s) = Nat.min m (String.length s - n).
Proof.
  revert n m. induction s as [|c s IH]; intros n m.
  - destruct n, m; reflexivity.
  - destruct n as [|n].
    + destruct m as [|m]; [reflexivity|].
      cbn [String.substring String.length]. rewrite IH.
      rewrite !Nat.sub_0_r. reflexivity.
    + cbn [String.substring String.length]. rewrite IH. reflexivity.
Qed.

(** X16: an id made by [generateId] has at most nine characters: it is as
    long as what follows the first two characters of the random number's
    rendering, cut at nine.  A rendering of at most two characters (as for
    the random number 0) gives the empty id. *)
Theorem X16_generateId_length (env : Env) :
  String.length (generateId env)
  = Nat.min 9 (String.length (random36 env) - 2)
  /\ (String.length (generateId env) <= 9)%nat
  /\ ((String.length (random36 env) <= 2)%nat -> generateId env = EmptyString).
Proof.
  unfold generateId, Js.substr.
  pose proof (substring_length 2 9 (random36 env)) as H.
  split; [exact H|]. split; [lia|].
  intros Hshort. destruct (String.substring 2 9 (random36 env)); [reflexivity|].
  cbn [String.length] in H. lia.
Qed.

Lemma X16_generateId_length_witness :
  generateId (mkEnv "2024-01-20T12:00:00.000Z" "0") = EmptyString.
Proof.
  apply (X16_generateId_length (mkEnv "2024-01-20T12:00:00.000Z" "0")).
  simpl. lia.
Defined.

(** *** Trimming *)

Lemma trimStart_empty s : Js.trimStart s = EmptyString <-> allWhiteSpace s = true.
Proof.
  induction s as [|c r IH]; cbn [Js.trimStart allWhiteSpace]; [tauto|].
  destruct (Js.isWhiteSpace c); cbn [andb]; [exact IH|].
  split; discriminate.
Qed.

Lemma trimStart_head s c r :
  Js.trimStart s = String c r -> Js.isWhiteSpace c = false.
Proof.
  induction s as [|d s IH]; cbn [Js.trimStart]; [discriminate|].
  destruct (Js.isWhiteSpace d) eqn:E; [exact IH|].
  intros [= <- _]. exact E.
Qed.

Lemma trimEnd_head c r :
  Js.trimEnd (String c r) = EmptyString -> Js.isWhiteSpace c = true.
Proof.
  cbn [Js.trimEnd]. destruct (Js.trimEnd r); [|discriminate].
  destruct (Js.isWhiteSpace c); [reflexivity|discriminate].
Qed.

(** A string trims to the empty string exactly when it is white space
    only. *)
Lemma trim_empty s : Js.trim s = EmptyString <-> allWhiteSpace s = true.
Proof.
  unfold Js.trim. split.
  - intros H. apply trimStart_empty.
    destruct (Js.trimStart s) as [|c r] eqn:E; [reflexivity|].
    pose proof (trimStart_head _ _ _ E) as Hc.
    pose proof (trimEnd_head _ _ H) as Hc'. congruence.
  - intros H. apply trimStart_empty in H. now rewrite H.
Qed.

(** *** The form's submit, over any host *)

Lemma handleDragEnd_shape (event : DragEvent) (st : State) :
  handleDragEnd event st
  = setTasks (tasks (handleDragEnd event st)) (setActiveTask None st).
Proof.
  unfold handleDragEnd.
  destruct (over event) as [overId|]; [|reflexivity].
  destruct (List.find (hasId (active event)) (tasks st)) as [a|]; [|reflexivity].
  destruct (List.find (hasId overId) (tasks st)) as [o|]; [|reflexivity].
  destruct (Priority_eqb (Task.priority a) (Task.priority o)); [|reflexivity].
  destruct (negb _); reflexivity.
Qed.

Lemma truthy_trim s : Js.truthy (Js.trim s) = negb (allWhiteSpace s).
Proof.
  destruct (allWhiteSpace s) eqn:E.
  - apply trim_empty in E. now rewrite E.
  - destruct (Js.trim s) eqn:Et; [|reflexivity].
    apply trim_empty in Et. congruence.
Qed.

Section HostMore.

Variable Date_parse : string -> option Z.
Variable dayString : Z -> string.

(** X17: the outcomes of a submit.  It reports a failure exactly when the
    name or the assignee is white space only, or both dates parse with the
    start later than the end; then neither the state nor the form changes.
    Otherwise the draft is saved, the modal is closed, no task is being
    edited any more, and the one toast is "Task Created" or "Task Updated"
    according to whether a task was being edited. *)
Theorem X17_submit_outcomes (env : Env) (st : State) (m : ModalState) :
  (reportsFailure (snd (handleSubmit Date_parse env st m))
   <-> allWhiteSpace (TaskFormData.name (formData m)) = true
       \/ allWhiteSpace (TaskFormData.assignedTo (formData m)) = true
       \/ exists a b,
            Date_parse (TaskFormData.startDate (formData m)) = Some a
            /\ Date_parse (TaskFormData.endDate (formData m)) = Some b
            /\ b < a)
  /\ (reportsFailure (snd (handleSubmit Date_parse env st m)) ->
      fst (fst (handleSubmit Date_parse env st m)) = st
      /\ snd (fst (handleSubmit Date_parse env st m)) = m)
  /\ (~ reportsFailure (snd (handleSubmit Date_parse env st m)) ->
      fst (fst (handleSubmit Date_parse env st m))
        = handleCloseModal (handleSaveTask env (formData m) (images m) st)
      /\ isModalOpen (fst (fst (handleSubmit Date_parse env st m))) = false
      /\ editingTask (fst (fst (handleSubmit Date_parse env st m))) = None
      /\ snd (fst (handleSubmit Date_parse env st m)) = setIsSubmitting false m
      /\ exists d,
           snd (handleSubmit Date_parse env st m)
           = [mkToast (match editingTask st with
                       | Some _ => "Task Updated"
                       | None => "Task Created"
                       end) d false]).
Proof.
  pose proof (Date_gt_parsed Date_parse (TaskFormData.startDate (formData m))
                (TaskFormData.endDate (formData m))) as Hgt.
  unfold handleSubmit. rewrite !truthy_trim, !negb_involutive.
  destruct (allWhiteSpace (TaskFormData.name (formData m))) eqn:Hn;
    [|destruct (allWhiteSpace (TaskFormData.assignedTo (formData m))) eqn:Ha];
    cbn [orb];
    [| |destruct (Date_gt _ _) eqn:Hd].
  1-3: assert (Hf : reportsFailure (snd (st, m, [mkToast "Missing Information"
          "Please fill in the task name and assigned person." true])))
         by (eexists; split; [now left|reflexivity]).
  1-3: assert (Hf' : reportsFailure (snd (st, m, [mkToast "Invalid Dates"
          "Start date cannot be after end date." true])))
         by (eexists; split; [now left|reflexivity]).
  - split; [split; auto|]. split; [auto|]. intros Hnot; contradiction.
  - split; [split; auto|]. split; [auto|]. intros Hnot; contradiction.
  - split; [split; [intros _; right; right; now apply Hgt|auto]|].
    split; [auto|]. intros Hnot; contradiction.
  - cbn [fst snd formData images setIsSubmitting].
    assert (Hnf : ~ reportsFailure
              [mkToast
                 (match editingTask st with
                  | Some _ => "Task Updated" | None => "Task Created" end)
                 (String.append "Task "
                    (String.append (quoted (TaskFormData.name (formData m)))
                       (String.append " has been "
                          (String.append
                             (match editingTask st with
                              | Some _ => "updated" | None => "created" end)
                             " successfully.")))) false]).
    { intros (t & [<-|[]] & Hdt). discriminate Hdt. }
    split; [split|split].
    + intros Hr. contradiction.
    + intros [H|[H|H]]; try discriminate.
      apply Hgt in H. discriminate.
    + intros Hr. contradiction.
    + intros _. split; [reflexivity|]. split; [reflexivity|].
      split; [reflexivity|]. split; [reflexivity|]. eexists. reflexivity.
Qed.

(** X18: saving an edit of a task whose id is no longer in the collection
    changes no task, and is reported as "Task Updated" all the same. *)
Theorem X18_update_absent (env : Env) (st : State) (m : ModalState) (e : Task.t) :
  editingTask st = Some e ->
  ~ In (Task.id e) (ids (tasks st)) ->
  handleSaveTask env (formData m) (images m) st = st
  /\ (~ reportsFailure (snd (handleSubmit Date_parse env st m)) ->
      tasks (fst (fst (handleSubmit Date_parse env st m))) = tasks st
      /\ exists d, snd (handleSubmit Date_parse env st m)
                   = [mkToast "Task Updated" d false]).
Proof.
  intros He Habs.
  assert (Hsave : handleSaveTask env (formData m) (images m) st = st).
  { unfold handleSaveTask. rewrite He.
    rewrite (map_byId_absent _ _ _ Habs). apply setTasks_same. }
  split; [exact Hsave|]. intros Hnf.
  unfold handleSubmit in *. rewrite !truthy_trim, !negb_involutive in *.
  destruct (allWhiteSpace (TaskFormData.name (formData m))
            || allWhiteSpace (TaskFormData.assignedTo (formData m))).
  { exfalso. apply Hnf. eexists. split; [now left|reflexivity]. }
  destruct (Date_gt _ _).
  { exfalso. apply Hnf. eexists. split; [now left|reflexivity]. }
  cbn [fst snd formData images setIsSubmitting]. rewrite Hsave, He.
  split; [reflexivity|]. eexists. reflexivity.
Qed.

End HostMore.

Lemma X18_update_absent_witness :
  let gone := Examples.task4 in
  let st := handleEditTask gone Examples.initialState in
  let m := Examples.modalOf Examples.designDraft in
  handleSaveTask Examples.env (formData m) (images m) st = st
  /\ tasks (fst (fst (handleSubmit ExampleHost.Date_parse Examples.env st m)))
     = Examples.initialTasks
  /\ exists d, snd (handleSubmit ExampleHost.Date_parse Examples.env st m)
               = [mkToast "Task Updated" d false].
Proof.
  cbv zeta.
  destruct (X18_update_absent ExampleHost.Date_parse Examples.env
              (handleEditTask Examples.task4 Examples.initialState)
              (Examples.modalOf Examples.designDraft) Examples.task4 eq_refl)
    as [Hsave Hsubmit].
  - simpl. intuition discriminate.
  - split; [exact Hsave|]. apply Hsubmit.
    intros (t & Hin & Hd). vm_compute in Hin.
    destruct Hin as [<-|[]]. discriminate Hd.
Defined.

(** *** Editing and adding through the modal *)

Section ModalFlows.

Variable Date_parse : string -> option Z.
Variable dayString : Z -> string.

(** X19: opening a task for editing and submitting the seeded form
    unchanged keeps the task as it is, except that updatedAt becomes the
    current instant and a missing description becomes the empty string.
    The tasks of other ids are untouched and the modal is closed. *)
Theorem X19_edit_unchanged (env : Env) (st : State) (m0 : ModalState) (t : Task.t) :
  allWhiteSpace (Task.name t) = false ->
  allWhiteSpace (Task.assignedTo t) = false ->
  Date_gt (newDate Date_parse (Task.startDate t))
          (newDate Date_parse (Task.endDate t)) = false ->
  let st1 := handleEditTask t st in
  let m1 := seedForm (editingTask st1) (Some (defaultPriority st1)) m0 in
  let st2 := fst (fst (handleSubmit Date_parse env st1 m1)) in
  (forall k,
     nth_error (tasks st) k = Some t ->
     nth_error (tasks st2) k
     = Some (Task.mk (Task.id t) (Task.name t) (Task.assignedTo t)
               (Task.startDate t) (Task.endDate t) (Task.priority t)
               (Task.status t) (Task.images t)
               (Some (descriptionOrEmpty (Task.description t)))
               (Task.createdAt t) (now env)))
  /\ (forall k u,
        nth_error (tasks st) k = Some u -> Task.id u <> Task.id t ->
        nth_error (tasks st2) k = Some u)
  /\ isModalOpen st2 = false
  /\ editingTask st2 = None
  /\ ~ reportsFailure (snd (handleSubmit Date_parse env st1 m1)).
Proof.
  intros Hn Ha Hd st1 m1 st2.
  assert (Hsub : st2 = handleCloseModal
                         (handleSaveTask env (formData m1) (images m1) st1)
                 /\ ~ reportsFailure (snd (handleSubmit Date_parse env st1 m1))).
  { unfold st2, handleSubmit. rewrite !truthy_trim, !negb_involutive.
    cbn [m1 st1 handleEditTask editingTask setIsModalOpen setEditingTask
         seedForm setImages setFormData formData TaskFormData.name
         TaskFormData.assignedTo TaskFormData.startDate TaskFormData.endDate].
    rewrite Hn, Ha, Hd. cbn [orb fst snd]. split; [reflexivity|].
    intros (x & [<-|[]] & Hx). discriminate Hx. }
  destruct Hsub as [-> Hnf].
  split; [|split; [|split; [reflexivity|split; [reflexivity|exact Hnf]]]].
  - intros k Hk.
    cbn [handleCloseModal handleSaveTask st1 handleEditTask editingTask
         setIsModalOpen setEditingTask setTasks tasks].
    rewrite (nth_error_map_byId _ _ _ _ _ Hk), String.eqb_refl. reflexivity.
  - intros k u Hk Hne.
    cbn [handleCloseModal handleSaveTask st1 handleEditTask editingTask
         setIsModalOpen setEditingTask setTasks tasks].
    rewrite (nth_error_map_byId _ _ _ _ _ Hk).
    destruct (String.eqb_spec (Task.id u) (Task.id t)); [contradiction|reflexivity].
Qed.


End ModalFlows.

Lemma X19_edit_unchanged_witness :
  let st1 := handleEditTask Examples.task2 Examples.initialState in
  let m1 := seedForm (editingTask st1) (Some (defaultPriority st1))
              (Examples.modalOf Examples.designDraft) in
  let st2 := fst (fst (handleSubmit ExampleHost.Date_parse Examples.env st1 m1)) in
  tasks st2
  = [Examples.task1;
     Task.mk "2" "API integration" "Mike Chen" "2024-01-18" "2024-01-30"
       urgent todo [] (Some "Integrate third-party APIs")
       "2024-01-12T09:00:00Z" "2024-01-20T12:00:00.000Z";
     Examples.task3]
  /\ isModalOpen st2 = false.
Proof.
  cbv zeta.
  destruct (X19_edit_unchanged ExampleHost.Date_parse Examples.env
              Examples.initialState (Examples.modalOf Examples.designDraft)
              Examples.task2 eq_refl eq_refl eq_refl)
    as (Hsame & Hother & Hopen & _).
  split; [|exact Hopen].
  apply nth_error_ext. intros [|[|[|k]]].
  - apply (Hother 0%nat Examples.task1 eq_refl). discriminate.
  - apply (Hsame 1%nat eq_refl).
  - apply (Hother 2%nat Examples.task3 eq_refl). discriminate.
  - reflexivity.
Defined.


(** *** The views *)

Lemma includes_empty s : Js.includes s EmptyString = true.
Proof. rewrite includes_unfold. now destruct s. Qed.

Section ViewFacts.

Variable Date_parse : string -> option Z.
Variable dayString : Z -> string.

(** X21: with the empty search text, the status filter ["all"] and no date
    selected (the filters [TaskManager] starts with), the view is the whole
    collection and each column holds the collection's tasks of its
    priority. *)
Theorem X21_no_filter (st : State) :
  searchQuery st = EmptyString ->
  statusFilter st = "all" ->
  dateFilter st = None ->
  filteredTasks Date_parse dayString st = tasks st
  /\ forall p,
       bucket (groupedTasks Date_parse dayString st) p
       = List.filter (hasPriority p) (tasks st).
Proof.
  intros Hq Hs Hd.
  assert (Hall : filteredTasks Date_parse dayString st = tasks st).
  { unfold filteredTasks. apply filter_all. intros t _.
    unfold matchesSearch, matchesStatus, matchesDate.
    rewrite Hq, Hs, Hd. cbn [Js.toLowerCase]. now rewrite includes_empty. }
  split; [exact Hall|].
  intros p. destruct p;
    cbn [bucket groupedTasks Grouped.urgent Grouped.high Grouped.medium Grouped.low];
    now rewrite Hall.
Qed.

(** X22: the statistics row.  The four counts are those of urgent, high,
    medium and low in this order; they add up to the number of tasks in the
    view, which is at most the size of the collection. *)
Theorem X22_column_counts (st : State) :
  List.map fst (columnCounts (groupedTasks Date_parse dayString st))
  = [urgent; high; medium; low]
  /\ list_sum (List.map snd (columnCounts (groupedTasks Date_parse dayString st)))
     = List.length (filteredTasks Date_parse dayString st)
  /\ (List.length (filteredTasks Date_parse dayString st)
      <= List.length (tasks st))%nat.
Proof.
  split; [reflexivity|]. split.
  - pose proof (Permutation_length
                  (buckets_perm (filteredTasks Date_parse dayString st))) as H.
    rewrite !length_app in H.
    cbn [columnCounts List.map snd list_sum bucket groupedTasks
         Grouped.urgent Grouped.high Grouped.medium Grouped.low].
    unfold list_sum. cbn [fold_right]. lia.
  - apply filter_length_le.
Qed.

(** X23: under any filter, [handleDragEnd] changes no column of the view
    other than the dragged task's: such a column shows the same tasks in
    the same order as before the drop. *)
Theorem X23_dragEnd_other_columns (event : DragEvent) (st : State) (q : Priority) :
  (forall a, List.find (hasId (active event)) (tasks st) = Some a ->
             Task.priority a <> q) ->
  bucket (groupedTasks Date_parse dayString (handleDragEnd event st)) q
  = bucket (groupedTasks Date_parse dayString st) q.
Proof.
  intros Hq.
  set (visible := fun t => matchesSearch st t && matchesStatus st t
                           && matchesDate Date_parse dayString st t).
  assert (Hview : forall s,
            searchQuery s = searchQuery st -> statusFilter s = statusFilter st ->
            dateFilter s = dateFilter st ->
            bucket (groupedTasks Date_parse dayString s) q
            = List.filter (fun t => visible t && hasPriority q t) (tasks s)).
  { intros s H1 H2 H3.
    assert (Hf : filteredTasks Date_parse dayString s = List.filter visible (tasks s)).
    { unfold filteredTasks, visible, matchesSearch, matchesStatus, matchesDate.
      now rewrite H1, H2, H3. }
    destruct q;
      cbn [bucket groupedTasks Grouped.urgent Grouped.high Grouped.medium
           Grouped.low];
      rewrite Hf; apply filter_filter_and. }
  rewrite (Hview st) by reflexivity.
  rewrite (Hview (handleDragEnd event st))
    by (rewrite handleDragEnd_shape; reflexivity).
  destruct (handleDragEnd_cases event st)
    as [E|(overId & a & o & Hover & Ha & Ho & Hp & Hne)].
  - now rewrite E.
  - rewrite (handleDragEnd_reorders _ _ _ _ _ Hover Ha Ho Hp Hne).
    destruct (handleDragEnd_indices _ _ _ _ _ Ha Ho Hp) as (Hi & Hj & _).
    apply reorder_filter_other; auto.
    intros t Ht. apply andb_true_iff in Ht. destruct Ht as [_ Ht].
    unfold hasPriority in *. apply Priority_eqb_eq in Ht.
    apply Priority_eqb_neq. rewrite Ht. intros Eq. now apply (Hq a Ha).
Qed.

(** X24: the overdue badge.  A task whose end date does not parse is never
    overdue, and after [handleStatusUpdate] to [completed] no task with that
    id is overdue, whatever the time. *)
Theorem X24_overdue (env : Env) (taskId : string) (st : State) (current : Z) :
  (forall t, Date_parse (Task.endDate t) = None ->
             isOverdue Date_parse current t = false)
  /\ (forall t,
        In t (tasks (fst (handleStatusUpdate env taskId completed st))) ->
        Task.id t = taskId ->
        isOverdue Date_parse current t = false).
Proof.
  split.
  - intros t H. unfold isOverdue, newDate. now rewrite H.
  - intros t Hin Hid. unfold handleStatusUpdate in Hin.
    cbn [fst tasks setTasks] in Hin.
    apply in_map_iff in Hin. destruct Hin as (u & <- & _).
    destruct (String.eqb_spec (Task.id u) taskId) as [E|E]; [|contradiction].
    unfold isOverdue. cbn [withStatus Task.status Status_eqb negb].
    apply andb_false_r.
Qed.

End ViewFacts.

Lemma X21_no_filter_witness :
  filteredTasks ExampleHost.Date_parse ExampleHost.dayString Examples.initialState
  = Examples.initialTasks
  /\ bucket (groupedTasks ExampleHost.Date_parse ExampleHost.dayString
               Examples.initialState) high
     = [Examples.task1].
Proof.
  destruct (X21_no_filter ExampleHost.Date_parse ExampleHost.dayString
              Examples.initialState eq_refl eq_refl eq_refl) as [Hall Hcol].
  split; [exact Hall|]. exact (Hcol high).
Defined.

Lemma X23_dragEnd_other_columns_witness :
  bucket (groupedTasks ExampleHost.Date_parse ExampleHost.dayString
            (handleDragEnd (mkDragEvent "1" (Some "4")) Examples.fourState)) urgent
  = bucket (groupedTasks ExampleHost.Date_parse ExampleHost.dayString
              Examples.fourState) urgent.
Proof.
  apply (X23_dragEnd_other_columns ExampleHost.Date_parse ExampleHost.dayString
           (mkDragEvent "1" (Some "4")) Examples.fourState urgent).
  intros a [= <-]. discriminate.
Defined.
